(** * vidquery-aichat: scrape trigger, ingestion and retrieval tools

    A shallow embedding of the backend of the repository:

    - [Brightdata] : backend/brightdata.js, [triggerYoutubeVideoScrape];
    - [Splitter]   : the text splitter that embeddings.js configures;
    - section [Backend] : embeddings.js ([vectorStore],
      [addYTVideoToVectorStore]), agent.js (the three tools) and the Express
      server (the [/webhook] handler), followed by their properties;
    - [Demo]       : a concrete environment on which the model is run.

    JavaScript values are modelled by the inductive type [Js.value]; an
    [async] function is a computation in the monad [M], which threads the
    observable world (console, vector table, HTTP responses sent) and may end
    in a thrown exception (a rejected promise).  The services the program
    talks to (the BrightData HTTP endpoint, the embedding provider, the
    database) are parameters of the sections below. *)

From Stdlib Require Import String Ascii List ZArith QArith Lia Bool Arith PeanoNat.
From Stdlib Require Import Qabs DecimalString Permutation.
Import ListNotations.
Local Close Scope Q_scope.
Local Open Scope nat_scope.
Local Open Scope list_scope.
Local Open Scope string_scope.
#[local] Set Warnings "-register-all".

(* ------------------------------------------------------------------------- *)
(** ** JavaScript values *)
(* ------------------------------------------------------------------------- *)

Module Js.

(** The values that [JSON.parse] / [express.json()] can deliver, plus
    [undefined].  A number is kept as an integer: no number is ever inspected
    by the program.  [VObj] lists the own properties of a plain object in
    insertion order, each name once. *)
Inductive value : Type :=
| VUndefined
| VNull
| VBool (b : bool)
| VNum (n : Z)
| VStr (s : string)
| VArr (items : list value)
| VObj (props : list (string * value)).

(** Thrown values. *)
Inductive exn : Type :=
| TypeError (msg : string)
| SyntaxError (msg : string)
| ServiceError (service msg : string).

(** The result of evaluating an expression: a value, or a thrown exception. *)
Inductive Outcome (A : Type) : Type :=
| Return (a : A)
| Throw (e : exn).
Arguments Return {A} a.
Arguments Throw {A} e.

Definition props := list (string * value).

(** Own-property lookup. *)
Fixpoint lookup (name : string) (ps : props) : option value :=
  match ps with
  | [] => None
  | (k, v) :: rest => if (k =? name)%string then Some v else lookup name rest
  end.

(** [v.name] for the property names this program reads ([snapshot_id],
    [video_id], [transcript]): none of them is a member of a built-in
    prototype, so on a primitive or an array the access yields [undefined];
    on [null] and [undefined] it throws. *)
Definition get_prop (v : value) (name : string) : Outcome value :=
  match v with
  | VUndefined =>
      Throw (TypeError ("Cannot read properties of undefined (reading '" ++ name ++ "')"))
  | VNull =>
      Throw (TypeError ("Cannot read properties of null (reading '" ++ name ++ "')"))
  | VObj ps => match lookup name ps with
               | Some x => Return x
               | None => Return VUndefined
               end
  | _ => Return VUndefined
  end.

(** Truthiness, as used by a caller that tests a job handle. *)
Definition truthy (v : value) : bool :=
  match v with
  | VUndefined | VNull => false
  | VBool b => b
  | VNum n => negb (n =? 0)%Z
  | VStr s => negb (s =? EmptyString)%string
  | VArr _ | VObj _ => true
  end.

Definition nl : ascii := ascii_of_nat 10.

(** [String(v)] for the elements of an array being joined:
    [Array.prototype.join] renders [undefined] and [null] as the empty
    string. *)
Fixpoint to_text (v : value) : string :=
  match v with
  | VUndefined => "undefined"
  | VNull => "null"
  | VBool true => "true"
  | VBool false => "false"
  | VNum n => NilZero.string_of_int (Z.to_int n)
  | VStr s => s
  | VArr items =>
      (fix go (l : list value) : string :=
         match l with
         | [] => EmptyString
         | x :: rest =>
             let e := match x with
                      | VUndefined | VNull => EmptyString
                      | _ => to_text x
                      end in
             match rest with
             | [] => e
             | _ => e ++ "," ++ go rest
             end
         end) items
  | VObj _ => "[object Object]"
  end.

Definition join_elem (v : value) : string :=
  match v with
  | VUndefined | VNull => EmptyString
  | _ => to_text v
  end.

(** [xs.join(sep)] on an array of strings already rendered. *)
Fixpoint join (sep : string) (xs : list string) : string :=
  match xs with
  | [] => EmptyString
  | [x] => x
  | x :: rest => x ++ sep ++ join sep rest
  end.

End Js.
Import Js.

(* ------------------------------------------------------------------------- *)
(** ** The observable world and the monad of async computations *)
(* ------------------------------------------------------------------------- *)

(** An embedding vector.  The provider computes floating-point vectors; only
    their identity and the ranking they induce matter here. *)
Definition Vector := list Q.

(** A LangChain [Document]. *)
Record Document : Type := mkDocument {
  pageContent : string;
  metadata : props
}.

(** A row of the [transcripts] table: content, vector, metadata. *)
Record Row : Type := mkRow {
  content : string;
  vector : Vector;
  row_metadata : props
}.

Inductive stream : Type := Out | Err.

Inductive logged : Type :=
| LVal (v : value)
| LErr (e : exn).

Record World : Type := mkWorld {
  console : list (stream * list logged);
  table : list Row;
  responses : list string
}.

Definition M (A : Type) : Type := World -> Outcome A * World.

Definition ret {A} (a : A) : M A := fun w => (Return a, w).
Definition throw {A} (e : exn) : M A := fun w => (Throw e, w).
Definition bind {A B} (m : M A) (k : A -> M B) : M B :=
  fun w => match m w with
           | (Return a, w') => k a w'
           | (Throw e, w') => (Throw e, w')
           end.
(** [try { body } catch (error) { handler }] *)
Definition try_catch {A} (body : M A) (handler : exn -> M A) : M A :=
  fun w => match body w with
           | (Return a, w') => (Return a, w')
           | (Throw e, w') => handler e w'
           end.
(** Evaluating an expression that may throw. *)
Definition eval {A} (o : Outcome A) : M A := fun w => (o, w).

Notation "x <- m ;; k" := (bind m (fun x => k))
  (at level 61, m at next level, right associativity).
Notation "m ;;; k" := (bind m (fun _ => k))
  (at level 61, right associativity).

Definition write (s : stream) (args : list logged) : M unit :=
  fun w => (Return tt,
            mkWorld (console w ++ [(s, args)])%list (table w) (responses w)).
Definition console_log := write Out.
Definition console_error := write Err.

(** [res.send(body)] *)
Definition res_send (body : string) : M unit :=
  fun w => (Return tt,
            mkWorld (console w) (table w) (responses w ++ [body])%list).

(* ------------------------------------------------------------------------- *)
(** ** backend/brightdata.js *)
(* ------------------------------------------------------------------------- *)

Module Brightdata.

Record Request : Type := mkRequest {
  req_url : string;
  req_method : string;
  req_headers : list (string * string);
  req_body : string
}.

(** What the program uses of a [fetch] response: the status (never read by
    the code) and the outcome of [response.json()]. *)
Record Response : Type := mkResponse {
  status : Z;
  json : Outcome value
}.

Section Trigger.

(** [process.env.API_URL], [process.env.BRIGHTDATA_API_KEY], [JSON.stringify]
    and the network. *)
Variable API_URL : string.
Variable BRIGHTDATA_API_KEY : string.
Variable JSON_stringify : value -> string.
Variable fetch : Request -> Outcome Response.

Definition brightDataTriggerUrl : string :=
  "https://api.brightdata.com/datasets/v3/trigger".
Definition webhookUrl : string := API_URL ++ "/webhook".

Definition trigger_request (url : string) : Request :=
  let data :=
    JSON_stringify (VArr [VObj [("url", VStr url); ("country", VStr EmptyString)]]) in
  mkRequest
    (brightDataTriggerUrl ++ "?dataset_id=gd_lk56epmy2i5g7lzu0k&endpoint="
       ++ webhookUrl
       ++ "&format=json&uncompressed_webhook=true&include_errors=true")
    "POST"
    [("Authorization", "Bearer " ++ BRIGHTDATA_API_KEY);
     ("Content-Type", "application/json")]
    data.

Definition trigger_error_line (error : exn) : stream * list logged :=
  (Err, [LVal (VStr "Error triggering YouTube video scrape:"); LErr error]).

Definition triggerYoutubeVideoScrape (url : string) : M value :=
  try_catch
    (response <- eval (fetch (trigger_request url)) ;;
     result <- eval (json response) ;;
     eval (get_prop result "snapshot_id"))
    (fun error =>
       console_error [LVal (VStr "Error triggering YouTube video scrape:");
                      LErr error] ;;;
       ret VUndefined).

End Trigger.

End Brightdata.

(* ------------------------------------------------------------------------- *)
(** ** The text splitter *)
(* ------------------------------------------------------------------------- *)

Module Splitter.

(** [new RecursiveCharacterTextSplitter({ chunkSize, chunkOverlap })] *)
Record config : Type := mkConfig {
  chunkSize : nat;
  chunkOverlap : nat
}.

(** Modelled from the spec: the windows of section 4.2, those of [s] that
    start at [start], [start + stride], ...; each holds [size] characters,
    and the window that reaches the end of [s] is the last one and "may be
    shorter".  The fuel bounds the number of windows; the length of [s] is
    enough when the stride is positive (lemma [windows_at_last]). *)
Fixpoint windows_at (fuel size stride start : nat) (s : string) : list string :=
  match fuel with
  | O => []
  | S fuel' =>
      substring start size s ::
        (if Nat.ltb (start + size) (String.length s)
         then windows_at fuel' size stride (start + stride) s
         else [])
  end.

(** Modelled from the spec: the class [RecursiveCharacterTextSplitter] comes
    from the npm package [@langchain/textsplitters], which is not among the
    sources; the repository only configures it.  Section 4.2: the transcript
    is split "into overlapping windows: fixed window length with fixed
    overlap between consecutive windows, preserving original character order;
    the last window may be shorter than the fixed length". *)
Definition splitText (c : config) (s : string) : list string :=
  match s with
  | EmptyString => []
  | _ => windows_at (String.length s) (chunkSize c)
           (chunkSize c - chunkOverlap c) 0 s
  end.

(** Modelled from the spec: [splitter.splitDocuments] belongs to the same
    package.  Section 4.2: "Each window becomes one TranscriptChunk tagged
    with video_id", that is, with the metadata of the document it was cut
    from. *)
Definition splitDocuments (c : config) (docs : list Document) : list Document :=
  flat_map
    (fun d => map (fun text => mkDocument text (metadata d))
                  (splitText c (pageContent d)))
    docs.

End Splitter.

(* ------------------------------------------------------------------------- *)
(** ** A concrete environment *)
(* ------------------------------------------------------------------------- *)

(** Concrete services and data, used to run the model. *)
Module Demo.

Definition embed (s : string) : Outcome Vector :=
  Return [inject_Z (Z.of_nat (String.length s))].

Definition distance (a b : Vector) : Q :=
  match a, b with
  | x :: _, y :: _ => Qabs (x - y)
  | _, _ => 0%Q
  end.

Definition insert_ok (_ : list Row) : option exn := None.

Definition coerce_content (_ : value) : Outcome string :=
  Throw (TypeError "pageContent is not a string").

(** A stand-in for [JSON.stringify]: the program never reads the text. *)
Definition stringify (v : value) : string := to_text v.

(** A provider that answers HTTP 500 with a JSON error body. *)
Definition provider_500 (_ : Brightdata.Request) : Outcome Brightdata.Response :=
  Return (Brightdata.mkResponse 500
            (Return (VObj [("error", VStr "Internal Server Error")]))).

(** A provider that answers HTTP 502 with a body that is not JSON. *)
Definition provider_502 (_ : Brightdata.Request) : Outcome Brightdata.Response :=
  Return (Brightdata.mkResponse 502
            (Throw (SyntaxError "Unexpected token < in JSON at position 0"))).

(** A provider that cannot be reached. *)
Definition provider_down (_ : Brightdata.Request) : Outcome Brightdata.Response :=
  Throw (TypeError "fetch failed").

(** A provider that starts the job. *)
Definition provider_ok (_ : Brightdata.Request) : Outcome Brightdata.Response :=
  Return (Brightdata.mkResponse 200
            (Return (VObj [("snapshot_id", VStr "s_m4x8q2")]))).

Definition video_url : string := "https://youtube.com/watch?v=xyz".
Definition api_url : string := "https://vidquery.example".
Definition api_key : string := "test-key".

Definition world0 : World := mkWorld [] [] [].

(** A transcript of 2200 characters: the lower-case alphabet, repeated. *)
Definition transcript_2200 : string :=
  string_of_list_ascii
    (map (fun i => ascii_of_nat (97 + Nat.modulo i 26)) (seq 0 2200)).

Definition video (id transcript : string) : value :=
  VObj [("video_id", VStr id); ("transcript", VStr transcript)].

Definition hello : value := video "abc12345678" "hello world".

Definition hello_row : Row :=
  mkRow "hello world" [11%Q] [("video_id", VStr "abc12345678")].

(** A table holding two chunks of one video and one chunk of another. *)
Definition world3 : World :=
  mkWorld []
    [mkRow "alpha" [1%Q] [("video_id", VStr "abc12345678")];
     mkRow "gamma delta" [4%Q] [("video_id", VStr "zzz00000000")];
     mkRow "beta" [2%Q] [("video_id", VStr "abc12345678")]]
    [].

End Demo.

(** Services that fail, and replies of the agent. *)
Module Scenario.

(** An embedding provider that is down. *)
Definition embed_down (_ : string) : Outcome Vector :=
  Throw (ServiceError "openai" "503 Service Unavailable").

(** A database that refuses every insert. *)
Definition insert_refused (_ : list Row) : option exn :=
  Some (ServiceError "postgres" "connection terminated").

(** A stand-in for the body Express makes of a value that is not a string. *)
Definition express_body (v : value) : string :=
  match v with
  | VUndefined => EmptyString
  | _ => to_text v
  end.

(** A provider that answers HTTP 500 and still names a snapshot. *)
Definition provider_500_id (_ : Brightdata.Request)
    : Outcome Brightdata.Response :=
  Return (Brightdata.mkResponse 500
            (Return (VObj [("snapshot_id", VStr "s_err500")]))).

(** An item that carries a transcript and no [video_id]. *)
Definition untagged : value := VObj [("transcript", VStr "hello world")].

Definition untagged_row : Row :=
  mkRow "hello world" [11%Q] [("video_id", VUndefined)].

Definition ai_message (text : string) : value :=
  VObj [("role", VStr "assistant"); ("content", VStr text)].

(** An agent that answers after one tool round. *)
Definition agent_reply (input config : value) : M value :=
  fun w =>
    (Return (VObj [("messages",
                    VArr [VObj [("role", VStr "user"); ("content", VStr "hi")];
                          ai_message "Let me look that up.";
                          ai_message "The video is about tides."])]),
     w).

(** An agent whose state holds no message. *)
Definition agent_silent (input config : value) : M value :=
  fun w => (Return (VObj [("messages", VArr [])]), w).

(** An agent whose model call fails. *)
Definition agent_down (input config : value) : M value :=
  fun w => (Throw (ServiceError "anthropic" "529 Overloaded"), w).

Definition generate_body : value :=
  VObj [("query", VStr "what is the video about?"); ("thread_id", VStr "t-1")].

(** A table that holds one chunk of another video. *)
Definition world1 : World :=
  mkWorld [] [mkRow "gamma delta" [4%Q] [("video_id", VStr "zzz00000000")]] [].

End Scenario.

(* ------------------------------------------------------------------------- *)
(** ** embeddings.js, agent.js and the server *)
(* ------------------------------------------------------------------------- *)

Section Backend.

(** The embedding provider ([text-embedding-3-large]): a vector, or a thrown
    error. *)
Variable embed : string -> Outcome Vector.
(** The cosine distance the database computes between two vectors. *)
Variable distance : Vector -> Vector -> Q.
(** The database rejecting an insert of the given rows. *)
Variable insert_fault : list Row -> option exn.
(** What [new Document({ pageContent })] makes of a [pageContent] that is not
    a string. *)
Variable coerce_content : value -> Outcome string.
(** The configuration of the BrightData client. *)
Variable API_URL : string.
Variable BRIGHTDATA_API_KEY : string.
Variable JSON_stringify : value -> string.
Variable fetch : Brightdata.Request -> Outcome Brightdata.Response.

(** *** The vector store *)

Fixpoint embed_all (texts : list string) : Outcome (list Vector) :=
  match texts with
  | [] => Return []
  | t :: rest =>
      match embed t with
      | Throw e => Throw e
      | Return v =>
          match embed_all rest with
          | Throw e => Throw e
          | Return vs => Return (v :: vs)
          end
      end
  end.

Definition rows_of (docs : list Document) (vectors : list Vector) : list Row :=
  map (fun dv => mkRow (pageContent (fst dv)) (snd dv) (metadata (fst dv)))
      (combine docs vectors).

(** Modelled from the spec: [vectorStore] is a [PGVectorStore] of the npm
    package [@langchain/community].  Section 4.2: "All chunks for one
    ingestion call are written to the Vector Index as a single batch;
    embedding computation for each chunk happens as part of the write". *)
Definition addDocuments (docs : list Document) : M unit :=
  vectors <- eval (embed_all (map pageContent docs)) ;;
  let rows := rows_of docs vectors in
  match insert_fault rows with
  | Some e => throw e
  | None =>
      fun w => (Return tt,
                mkWorld (console w) (table w ++ rows)%list (responses w))
  end.

(** Modelled from the spec: a search "filtered by metadata equality"
    (section 2).  For a filter [{ name: text, ... }] the row's metadata holds
    each listed property with that string as its value; a search without a
    filter is a search with the empty filter. *)
Definition matches (filter : list (string * string)) (r : Row) : bool :=
  forallb
    (fun kv => match lookup (fst kv) (row_metadata r) with
               | Some (VStr s) => (s =? snd kv)%string
               | _ => false
               end)
    filter.

Fixpoint insert_by (key : Row -> Q) (r : Row) (l : list Row) : list Row :=
  match l with
  | [] => [r]
  | x :: rest =>
      if Qle_bool (key r) (key x) then r :: l else x :: insert_by key r rest
  end.

(** Modelled from the spec: "ranked by similarity (closest first)"
    (section 4.3). *)
Definition rank (q : Vector) (rows : list Row) : list Row :=
  fold_right (insert_by (fun r => distance q (vector r))) [] rows.

Definition document_of (r : Row) : Document :=
  mkDocument (content r) (row_metadata r).

(** Modelled from the spec: the query of the store (sections 2 and 4.3),
    the [k] rows closest to [q] among those that pass the filter. *)
Definition nearest (q : Vector) (k : nat) (filter : list (string * string))
    (rows : list Row) : list Row :=
  firstn k (rank q (List.filter (matches filter) rows)).

(** Modelled from the spec: [vectorStore.similaritySearch(query, k, filter)]
    of the same package.  Sections 2 and 4.3: a "similarity search over the
    Vector Index restricted to chunks whose metadata equals the supplied"
    filter, "returning at most [k] matches ranked by similarity (closest
    first)"; without a filter the search is "unrestricted ... over the entire
    Vector Index". *)
Definition similaritySearch (query : string) (k : nat)
    (filter : list (string * string)) : M (list Document) :=
  q <- eval (embed query) ;;
  fun w => (Return (map document_of (nearest q k filter (table w))), w).

(** *** embeddings.js *)

(** [new Document({ pageContent, metadata })].  The class is the one of
    [@langchain/core]: a string is kept as the content; what becomes of any
    other value is left to [coerce_content]. *)
Definition new_Document (content : value) (md : props) : Outcome Document :=
  match content with
  | VStr s => Return (mkDocument s md)
  | _ => match coerce_content content with
         | Return s => Return (mkDocument s md)
         | Throw e => Throw e
         end
  end.

Definition splitter : Splitter.config := Splitter.mkConfig 1000 200.

(** The value of [chunks] in [addYTVideoToVectorStore]: the destructuring of
    [videoData], the one-document array and the call of the splitter. *)
Definition video_chunks (videoData : value) : Outcome (list Document) :=
  match get_prop videoData "transcript" with
  | Throw e => Throw e
  | Return transcript =>
      match get_prop videoData "video_id" with
      | Throw e => Throw e
      | Return video_id =>
          match new_Document transcript [("video_id", video_id)] with
          | Throw e => Throw e
          | Return doc => Return (Splitter.splitDocuments splitter [doc])
          end
      end
  end.

Definition addYTVideoToVectorStore (videoData : value) : M unit :=
  id <- eval (get_prop videoData "video_id") ;;
  console_log [LVal (VStr "Adding video to vector store:"); LVal id] ;;;
  try_catch
    (chunks <- eval (video_chunks videoData) ;;
     addDocuments chunks)
    (fun error =>
       console_error [LVal (VStr "Error adding video to vector store:");
                      LErr error]).

(** *** agent.js *)

Definition separator : string := String nl " ".

Definition triggerYoutubeVideoScrapeTool (url : string) : M value :=
  console_log [LVal (VStr "Triggering YouTube video scrape"); LVal (VStr url)] ;;;
  snapshotId <- Brightdata.triggerYoutubeVideoScrape
                  API_URL BRIGHTDATA_API_KEY JSON_stringify fetch url ;;
  console_log [LVal (VStr "YouTube video scrape triggered"); LVal snapshotId] ;;;
  ret snapshotId.

Definition retrieveTool (query videoId : string) : M string :=
  retrievedDocs <- similaritySearch query 3 [("video_id", videoId)] ;;
  let serializedDocs := join separator (map pageContent retrievedDocs) in
  ret serializedDocs.

(** [doc.metadata.video_id] *)
Definition doc_video_id (doc : Document) : value :=
  match lookup "video_id" (metadata doc) with
  | Some v => v
  | None => VUndefined
  end.

Definition retrieveSimilarVideosTool (query : string) : M string :=
  retrievedDocs <- similaritySearch query 30 [] ;;
  let ids := join separator (map join_elem (map doc_video_id retrievedDocs)) in
  ret ids.

(** *** The server *)

(** Every promise of the array runs to its settlement, in array order; the
    interleaving of the callbacks at their [await]s is not modelled. *)
Fixpoint settle_all {A} (promises : list (M A)) (w : World)
    : list (Outcome A) * World :=
  match promises with
  | [] => ([], w)
  | p :: rest =>
      let (o, w1) := p w in
      let (os, w2) := settle_all rest w1 in
      (o :: os, w2)
  end.

(** The first rejection, or all the values. *)
Fixpoint all_fulfilled {A} (os : list (Outcome A)) : Outcome (list A) :=
  match os with
  | [] => Return []
  | Throw e :: _ => Throw e
  | Return a :: rest =>
      match all_fulfilled rest with
      | Return l => Return (a :: l)
      | Throw e => Throw e
      end
  end.

(** [await Promise.all(promises)] *)
Definition promise_all {A} (promises : list (M A)) : M (list A) :=
  fun w => let (os, w') := settle_all promises w in (all_fulfilled os, w').

(** [req.body.map(f)] *)
Definition body_map {A} (body : value) (f : value -> A) : Outcome (list A) :=
  match body with
  | VArr items => Return (map f items)
  | VUndefined =>
      Throw (TypeError "Cannot read properties of undefined (reading 'map')")
  | VNull => Throw (TypeError "Cannot read properties of null (reading 'map')")
  | _ => Throw (TypeError "req.body.map is not a function")
  end.

(** [app.post("/webhook", ...)] *)
Definition post_webhook (body : value) : M unit :=
  promises <- eval (body_map body (fun video => addYTVideoToVectorStore video)) ;;
  promise_all promises ;;;
  res_send "OK".

(** [app.get("/", ...)] *)
Definition get_root : M unit := res_send "Hello World!".

(** [agent.invoke(input, config)]: the tool-calling loop of the agent
    runtime around the hosted model, with whatever its tool calls do to the
    world. *)
Variable agent_invoke : value -> value -> M value.
(** The body Express sends for an argument of [res.send] that is not a
    string. *)
Variable express_body : value -> string.

(** [xs.at(-1)]: the last element of an array, the last character of a
    string, [undefined] when there is none; other values have no [at]. *)
Definition at_last (v : value) : Outcome value :=
  match v with
  | VArr items => Return (last items VUndefined)
  | VStr s =>
      match String.length s with
      | O => Return VUndefined
      | S n => Return (VStr (substring n 1 s))
      end
  | VUndefined =>
      Throw (TypeError "Cannot read properties of undefined (reading 'at')")
  | VNull => Throw (TypeError "Cannot read properties of null (reading 'at')")
  | _ => Throw (TypeError "results.messages.at is not a function")
  end.

(** [v?.name], for the property names of [get_prop] and for [content]. *)
Definition optional_prop (v : value) (name : string) : Outcome value :=
  match v with
  | VUndefined | VNull => Return VUndefined
  | _ => get_prop v name
  end.

(** [res.send(v)] *)
Definition res_send_value (v : value) : M unit :=
  match v with
  | VStr s => res_send s
  | _ => res_send (express_body v)
  end.

(** The arguments of [agent.invoke]: the user's message and the thread. *)
Definition user_input (query : value) : value :=
  VObj [("messages",
         VArr [VObj [("role", VStr "user"); ("content", query)]])].
Definition thread_config (thread_id : value) : value :=
  VObj [("configurable", VObj [("thread_id", thread_id)])].

(** [app.post("/generate", ...)].  The names [query], [thread_id] and
    [messages] are read with [get_prop]: like those it was written for, they
    are no members of a built-in prototype. *)
Definition post_generate (body : value) : M unit :=
  query <- eval (get_prop body "query") ;;
  thread_id <- eval (get_prop body "thread_id") ;;
  console_log [LVal query; LVal thread_id] ;;;
  results <- agent_invoke (user_input query) (thread_config thread_id) ;;
  messages <- eval (get_prop results "messages") ;;
  final <- eval (at_last messages) ;;
  content <- eval (optional_prop final "content") ;;
  res_send_value content.

(** The first line [triggerYoutubeVideoScrapeTool] logs, and the last. *)
Definition triggering_line (url : string) : stream * list logged :=
  (Out, [LVal (VStr "Triggering YouTube video scrape"); LVal (VStr url)]).
Definition triggered_line (snapshotId : value) : stream * list logged :=
  (Out, [LVal (VStr "YouTube video scrape triggered"); LVal snapshotId]).

(** The line [post_generate] logs. *)
Definition generate_line (query thread_id : value) : stream * list logged :=
  (Out, [LVal query; LVal thread_id]).

(** The world after a response was sent. *)
Definition with_response (body : string) (w : World) : World :=
  mkWorld (console w) (table w) (responses w ++ [body])%list.

(** The world after lines were written to the console. *)
Definition with_lines (lines : list (stream * list logged)) (w : World) : World :=
  mkWorld (console w ++ lines)%list (table w) (responses w).

(** *** Vocabulary of the statements *)

(** The line the [catch] block of [addYTVideoToVectorStore] logs. *)
Definition adding_error_line (e : exn) : stream * list logged :=
  (Err, [LVal (VStr "Error adding video to vector store:"); LErr e]).

(** Splitting, embedding or storing the chunks of [videoData] fails with
    [e]. *)
Definition ingestion_fails (videoData : value) (e : exn) : Prop :=
  video_chunks videoData = Throw e \/
  exists chunks,
    video_chunks videoData = Return chunks /\
    (embed_all (map pageContent chunks) = Throw e \/
     exists vs, embed_all (map pageContent chunks) = Return vs /\
                insert_fault (rows_of chunks vs) = Some e).

(** How the promise of [addYTVideoToVectorStore(video)] settles: the only
    evaluation outside the [try] block is [videoData.video_id]. *)
Definition item_outcome (video : value) : Outcome unit :=
  match get_prop video "video_id" with
  | Return _ => Return tt
  | Throw e => Throw e
  end.

(** The world after a batch of rows was appended to the table. *)
Definition with_rows (rows : list Row) (w : World) : World :=
  mkWorld (console w) (table w ++ rows)%list (responses w).

(** The line [addYTVideoToVectorStore] logs first. *)
Definition adding_line (id : value) : stream * list logged :=
  (Out, [LVal (VStr "Adding video to vector store:"); LVal id]).

(** The [video_id] a stored chunk is tagged with, as [doc.metadata.video_id]
    reads it. *)
Definition row_video_id (r : Row) : value := doc_video_id (document_of r).

Abbreviation trigger := (Brightdata.triggerYoutubeVideoScrape
                       API_URL BRIGHTDATA_API_KEY JSON_stringify fetch).
Abbreviation request := (Brightdata.trigger_request
                       API_URL BRIGHTDATA_API_KEY JSON_stringify).

(** The world after [console.error] of the trigger's [catch] block. *)
Definition with_trigger_error (e : exn) (w : World) : World :=
  mkWorld (console w ++ [Brightdata.trigger_error_line e])%list
          (table w) (responses w).

(** The external call failed: the request threw, the status is not 2xx, or
    the body is malformed, that is, it could not be parsed or it holds no
    [snapshot_id]. *)
Inductive call_failed : Outcome Brightdata.Response -> Prop :=
| network_error e : call_failed (Throw e)
| non_2xx r :
    ~ (200 <= Brightdata.status r < 300)%Z -> call_failed (Return r)
| malformed_body r e :
    Brightdata.json r = Throw e -> call_failed (Return r)
| missing_snapshot_id r result :
    Brightdata.json r = Return result ->
    (forall id, get_prop result "snapshot_id" = Return id -> id = VUndefined) ->
    call_failed (Return r).

(* ------------------------------------------------------------------------- *)
(** ** Properties of the scrape trigger *)
(* ------------------------------------------------------------------------- *)

Lemma trigger_fetch_throws url w e :
  fetch (request url) = Throw e ->
  trigger url w = (Return VUndefined, with_trigger_error e w).
Proof.
  intros H.
  unfold Brightdata.triggerYoutubeVideoScrape, try_catch, bind, eval.
  rewrite H. reflexivity.
Qed.

Lemma trigger_json_throws url w r e :
  fetch (request url) = Return r ->
  Brightdata.json r = Throw e ->
  trigger url w = (Return VUndefined, with_trigger_error e w).
Proof.
  intros H J.
  unfold Brightdata.triggerYoutubeVideoScrape, try_catch, bind, eval.
  rewrite H, J. reflexivity.
Qed.

Lemma trigger_json_parsed url w r result :
  fetch (request url) = Return r ->
  Brightdata.json r = Return result ->
  trigger url w =
    match get_prop result "snapshot_id" with
    | Return v => (Return v, w)
    | Throw e => (Return VUndefined, with_trigger_error e w)
    end.
Proof.
  intros H J.
  unfold Brightdata.triggerYoutubeVideoScrape, try_catch, bind, eval.
  rewrite H, J. destruct (get_prop result "snapshot_id"); reflexivity.
Qed.

(** C10.  [triggerYoutubeVideoScrape] never rejects.  Whatever the provider
    does, the call resolves: when [fetch] throws, or [response.json()]
    throws, or reading [snapshot_id] off the parsed body throws, the error is
    written to the error console and the result is [undefined]; when the
    body parses to a JSON object the result is the object's [snapshot_id]
    property, [undefined] when the object has none.  The status of the
    response plays no part. *)
Theorem trigger_never_rejects (url : string) (w : World) :
  (exists v w', trigger url w = (Return v, w')) /\
  (forall e, fetch (request url) = Throw e ->
     trigger url w = (Return VUndefined, with_trigger_error e w)) /\
  (forall r e, fetch (request url) = Return r ->
     Brightdata.json r = Throw e ->
     trigger url w = (Return VUndefined, with_trigger_error e w)) /\
  (forall r result e, fetch (request url) = Return r ->
     Brightdata.json r = Return result ->
     get_prop result "snapshot_id" = Throw e ->
     trigger url w = (Return VUndefined, with_trigger_error e w)) /\
  (forall r ps, fetch (request url) = Return r ->
     Brightdata.json r = Return (VObj ps) ->
     trigger url w =
       (Return (match lookup "snapshot_id" ps with
                | Some id => id
                | None => VUndefined
                end), w)).
Proof.
  split; [|split; [|split; [|split]]].
  - destruct (fetch (request url)) as [r|e] eqn:F.
    + destruct (Brightdata.json r) as [result|e] eqn:J.
      * rewrite (trigger_json_parsed url w r result F J).
        destruct (get_prop result "snapshot_id"); eauto.
      * rewrite (trigger_json_throws url w r e F J); eauto.
    + rewrite (trigger_fetch_throws url w e F); eauto.
  - intros e F. now apply trigger_fetch_throws.
  - intros r e F J. now apply trigger_json_throws with r.
  - intros r result e F J G.
    rewrite (trigger_json_parsed url w r result F J). now rewrite G.
  - intros r ps F J.
    rewrite (trigger_json_parsed url w r (VObj ps) F J).
    simpl. destruct (lookup "snapshot_id" ps); reflexivity.
Qed.

(** C1, as the code has it.  When the external call fails (the request
    throws, the status is not 2xx, or the body is malformed) the operation
    does not fail: it resolves.  After a request or a parse that threw it
    resolves with [undefined] and the error is logged; a [snapshot_id] that
    the provider's JSON object carries is returned as it is, whatever the
    status, and nothing is logged; and the only way to a result other than
    [undefined] is such a [snapshot_id] in a reply whose status is not 2xx. *)
Theorem trigger_failure_resolves (url : string) (w : World) :
  call_failed (fetch (request url)) ->
  exists v w',
    trigger url w = (Return v, w') /\
    (v = VUndefined \/
     exists r ps, fetch (request url) = Return r /\
                  ~ (200 <= Brightdata.status r < 300)%Z /\
                  Brightdata.json r = Return (VObj ps) /\
                  lookup "snapshot_id" ps = Some v) /\
    (forall e,
       fetch (request url) = Throw e \/
       (exists r, fetch (request url) = Return r /\
                  Brightdata.json r = Throw e) ->
       v = VUndefined /\ w' = with_trigger_error e w) /\
    (forall r ps id,
       fetch (request url) = Return r ->
       Brightdata.json r = Return (VObj ps) ->
       lookup "snapshot_id" ps = Some id ->
       v = id /\ w' = w).
Proof.
  intros failed.
  destruct (fetch (request url)) as [r|e] eqn:F.
  - destruct (Brightdata.json r) as [result|e] eqn:J.
    + rewrite (trigger_json_parsed url w r result F J).
      destruct (get_prop result "snapshot_id") as [v|e] eqn:G.
      * exists v, w. split; [reflexivity|]. split; [|split].
        -- destruct result as [| | b | n | s | items | ps]; simpl in G;
             try (injection G as <-; now left); try discriminate G.
           destruct (lookup "snapshot_id" ps) as [id|] eqn:L;
             injection G as <-; [|now left].
           inversion failed as [| r' bad | r' e' bad | r' result' J' none]; subst.
           ++ right. exists r, ps. auto.
           ++ rewrite J in bad. discriminate bad.
           ++ rewrite J in J'. injection J' as <-.
              left. apply none. simpl. now rewrite L.
        -- intros e [T | (r' & R' & T)]; [discriminate T|].
           injection R' as <-. rewrite J in T. discriminate T.
        -- intros r' ps id R' J' L. injection R' as <-.
           rewrite J in J'. injection J' as ->.
           simpl in G. rewrite L in G. injection G as <-. auto.
      * exists VUndefined, (with_trigger_error e w).
        split; [reflexivity|]. split; [now left|]. split.
        -- intros e' [T | (r' & R' & T)]; [discriminate T|].
           injection R' as <-. rewrite J in T. discriminate T.
        -- intros r' ps id R' J' L. injection R' as <-.
           rewrite J in J'. injection J' as ->. simpl in G.
           rewrite L in G. discriminate G.
    + rewrite (trigger_json_throws url w r e F J).
      exists VUndefined, (with_trigger_error e w).
      split; [reflexivity|]. split; [now left|]. split.
      * intros e' [T | (r' & R' & T)]; [discriminate T|].
        injection R' as <-. rewrite J in T. injection T as <-. auto.
      * intros r' ps id R' J' L. injection R' as <-.
        rewrite J in J'. discriminate J'.
  - rewrite (trigger_fetch_throws url w e F).
    exists VUndefined, (with_trigger_error e w).
    split; [reflexivity|]. split; [now left|]. split.
    + intros e' [T | (r' & R' & T)]; [|discriminate R'].
      injection T as <-. auto.
    + intros r' ps id R'. discriminate R'.
Qed.

(* ------------------------------------------------------------------------- *)
(** ** Properties of the retrieval tools *)
(* ------------------------------------------------------------------------- *)

Lemma insert_by_perm key r l : Permutation (insert_by key r l) (r :: l).
Proof.
  induction l as [|x rest IH]; simpl.
  - apply Permutation_refl.
  - destruct (Qle_bool (key r) (key x)).
    + apply Permutation_refl.
    + eapply perm_trans; [apply perm_skip, IH | apply perm_swap].
Qed.

Lemma rank_perm q rows : Permutation (rank q rows) rows.
Proof.
  induction rows as [|r rest IH]; simpl.
  - constructor.
  - eapply perm_trans; [apply insert_by_perm | now apply perm_skip].
Qed.

Lemma matches_video_id videoId r :
  matches [("video_id", videoId)] r = true <->
  lookup "video_id" (row_metadata r) = Some (VStr videoId).
Proof.
  unfold matches. simpl. rewrite andb_true_r.
  destruct (lookup "video_id" (row_metadata r)) as [[| | b | n | s | items | ps]|];
    try (split; intros H; discriminate H).
  rewrite String.eqb_eq. split; intros H; [now subst | now injection H].
Qed.

Lemma filter_no_filter rows : List.filter (matches []) rows = rows.
Proof.
  induction rows as [|r rest IH]; simpl; [reflexivity | now rewrite IH].
Qed.

Lemma firstn_In {A} (k : nat) (l : list A) (x : A) :
  In x (firstn k l) -> In x l.
Proof.
  intros H. rewrite <- (firstn_skipn k l). apply in_or_app. now left.
Qed.

Lemma nearest_length q k filter rows : length (nearest q k filter rows) <= k.
Proof. unfold nearest. apply firstn_le_length. Qed.

Lemma nearest_In q k filter rows r :
  In r (nearest q k filter rows) -> In r rows /\ matches filter r = true.
Proof.
  unfold nearest. intros H.
  apply (proj1 (filter_In (matches filter) r rows)).
  apply Permutation_in with (l := rank q (List.filter (matches filter) rows)).
  - apply rank_perm.
  - eapply firstn_In. exact H.
Qed.

Lemma nearest_unfiltered_length q k rows :
  length (nearest q k [] rows) = Nat.min k (length rows).
Proof.
  unfold nearest. rewrite filter_no_filter, length_firstn.
  now rewrite (Permutation_length (rank_perm q rows)).
Qed.

Lemma nearest_unfiltered_perm q k rows :
  length rows <= k -> Permutation (nearest q k [] rows) rows.
Proof.
  intros H. unfold nearest. rewrite filter_no_filter.
  rewrite firstn_all2.
  - apply rank_perm.
  - now rewrite (Permutation_length (rank_perm q rows)).
Qed.

Lemma similaritySearch_run query q k filter w :
  embed query = Return q ->
  similaritySearch query k filter w =
    (Return (map document_of (nearest q k filter (table w))), w).
Proof.
  intros E. unfold similaritySearch, bind, eval. now rewrite E.
Qed.

Lemma retrieveTool_run query videoId q w :
  embed query = Return q ->
  retrieveTool query videoId w =
    (Return (join separator
               (map content (nearest q 3 [("video_id", videoId)] (table w)))),
     w).
Proof.
  intros E. unfold retrieveTool, bind.
  rewrite (similaritySearch_run query q 3 _ w E).
  unfold ret. now rewrite map_map.
Qed.

Lemma retrieveSimilarVideosTool_run query q w :
  embed query = Return q ->
  retrieveSimilarVideosTool query w =
    (Return (join separator
               (map join_elem (map row_video_id (nearest q 30 [] (table w))))),
     w).
Proof.
  intros E. unfold retrieveSimilarVideosTool, bind.
  rewrite (similaritySearch_run query q 30 _ w E).
  unfold ret. now rewrite (map_map document_of doc_video_id).
Qed.

(** C3.  [retrieve(query, video_id)] is built from chunks of the requested
    video only: every chunk whose text enters the result is a row of the
    table whose [video_id] metadata is the requested identifier. *)
Theorem retrieve_only_requested_video (query videoId : string) (q : Vector)
    (w : World) :
  embed query = Return q ->
  let chunks := nearest q 3 [("video_id", videoId)] (table w) in
  retrieveTool query videoId w =
    (Return (join separator (map content chunks)), w) /\
  Forall (fun r => In r (table w) /\
                   lookup "video_id" (row_metadata r) = Some (VStr videoId) /\
                   row_video_id r = VStr videoId)
         chunks.
Proof.
  intros E chunks. split.
  - now apply retrieveTool_run.
  - apply Forall_forall. intros r H.
    apply nearest_In in H. destruct H as [Hin Hm].
    apply matches_video_id in Hm.
    repeat split; auto.
    unfold row_video_id, doc_video_id, document_of. simpl. now rewrite Hm.
Qed.

(** C4.  [retrieve] joins the text of at most 3 matched chunks, and
    [retrieveSimilarVideos] the ids of at most 30 matches. *)
Theorem retrieval_result_bounds (query videoId : string) (q : Vector)
    (w : World) :
  embed query = Return q ->
  (let chunks := nearest q 3 [("video_id", videoId)] (table w) in
   retrieveTool query videoId w =
     (Return (join separator (map content chunks)), w) /\
   length chunks <= 3) /\
  (let found := nearest q 30 [] (table w) in
   retrieveSimilarVideosTool query w =
     (Return (join separator (map join_elem (map row_video_id found))), w) /\
   length found <= 30).
Proof.
  intros E. split; split.
  - now apply retrieveTool_run.
  - apply nearest_length.
  - now apply retrieveSimilarVideosTool_run.
  - apply nearest_length.
Qed.

(** C5, as the code has it.  [retrieve] returns the text of the matched
    chunks, and nothing of their metadata, joined with the separator made of
    a newline followed by one space; when no chunk matches, and so when the
    table holds no chunk of the video, the result is the empty string and no
    error. *)
Theorem retrieve_joins_chunk_text (query videoId : string) (q : Vector)
    (w : World) :
  embed query = Return q ->
  let chunks := nearest q 3 [("video_id", videoId)] (table w) in
  retrieveTool query videoId w =
    (Return (join (String nl (String " " EmptyString)) (map content chunks)), w) /\
  (chunks = [] -> retrieveTool query videoId w = (Return EmptyString, w)) /\
  ((forall r, In r (table w) ->
      lookup "video_id" (row_metadata r) <> Some (VStr videoId)) ->
   retrieveTool query videoId w = (Return EmptyString, w)).
Proof.
  intros E chunks.
  assert (R := retrieveTool_run query videoId q w E). fold chunks in R.
  split; [exact R|]. split.
  - intros H. rewrite R, H. reflexivity.
  - intros none.
    assert (H : chunks = []).
    { destruct chunks as [|r rest] eqn:C; [reflexivity|]. exfalso.
      assert (I : In r (nearest q 3 [("video_id", videoId)] (table w))).
      { fold chunks. rewrite C. now left. }
      apply nearest_In in I. destruct I as [Hin Hm].
      apply matches_video_id in Hm. exact (none r Hin Hm). }
    rewrite R, H. reflexivity.
Qed.

(** C6.  [retrieveSimilarVideos] maps every match of the unrestricted search
    to its [video_id] and returns the ids in match order, one per match:
    there are as many ids as matches, the i-th id is that of the i-th match,
    and when the table holds at most 30 chunks every chunk contributes its
    id, however many chunks share a video. *)
Theorem similar_videos_ids_in_match_order (query : string) (q : Vector)
    (w : World) :
  embed query = Return q ->
  let found := nearest q 30 [] (table w) in
  let ids := map row_video_id found in
  retrieveSimilarVideosTool query w =
    (Return (join separator (map join_elem ids)), w) /\
  length ids = Nat.min 30 (length (table w)) /\
  (forall i r, nth_error found i = Some r ->
               nth_error ids i = Some (row_video_id r)) /\
  (length (table w) <= 30 ->
   Permutation ids (map row_video_id (table w))).
Proof.
  intros E found ids. repeat split.
  - now apply retrieveSimilarVideosTool_run.
  - unfold ids. rewrite length_map. apply nearest_unfiltered_length.
  - intros i r H. unfold ids. now apply map_nth_error.
  - intros H. unfold ids. apply Permutation_map.
    now apply nearest_unfiltered_perm.
Qed.

(* ------------------------------------------------------------------------- *)
(** ** Properties of the splitter *)
(* ------------------------------------------------------------------------- *)

Lemma substring_empty n m : substring n m EmptyString = EmptyString.
Proof. destruct n, m; reflexivity. Qed.

Lemma length_substring s : forall n m,
  String.length (substring n m s) = Nat.min m (String.length s - n).
Proof.
  induction s as [|c s IH]; intros n m.
  - rewrite substring_empty. simpl. now rewrite Nat.min_0_r.
  - destruct n as [|n]; destruct m as [|m]; simpl; try reflexivity.
    + rewrite IH. now rewrite Nat.sub_0_r.
    + rewrite IH. reflexivity.
    + rewrite IH. reflexivity.
Qed.

Lemma substring_substring s : forall n m a b,
  a + b <= m ->
  substring a b (substring n m s) = substring (n + a) b s.
Proof.
  induction s as [|c s IH]; intros n m a b H.
  - now rewrite !substring_empty.
  - destruct n as [|n].
    + destruct m as [|m].
      * assert (a = 0) by lia. assert (b = 0) by lia. subst. reflexivity.
      * simpl. destruct a as [|a].
        -- destruct b as [|b]; [reflexivity|].
           simpl. f_equal. apply (IH 0 m 0 b). lia.
        -- simpl. apply (IH 0 m a b). lia.
    + simpl. apply IH. exact H.
Qed.

Lemma substring_clip s : forall n m m',
  String.length s <= n + m -> String.length s <= n + m' ->
  substring n m s = substring n m' s.
Proof.
  induction s as [|c s IH]; intros n m m' H H'.
  - now rewrite !substring_empty.
  - destruct n as [|n].
    + destruct m as [|m]; [simpl in H; lia|].
      destruct m' as [|m']; [simpl in H'; lia|].
      simpl. f_equal. apply IH; simpl in *; lia.
    + simpl. apply IH; simpl in *; lia.
Qed.

Section Windows.

Variable s : string.
Variables size stride : nat.

Abbreviation windows fuel start := (Splitter.windows_at fuel size stride start s).

Lemma windows_at_nth : forall fuel start i,
  i < length (windows fuel start) ->
  nth i (windows fuel start) EmptyString = substring (start + i * stride) size s.
Proof.
  induction fuel as [|fuel IH]; intros start i H; simpl in *; [lia|].
  destruct i as [|i].
  - now rewrite Nat.add_0_r.
  - destruct (Nat.ltb (start + size) (String.length s)); simpl in H.
    + rewrite IH by lia. f_equal. lia.
    + lia.
Qed.

(** Every window but the last is followed by text beyond its end. *)
Lemma windows_at_inner : forall fuel start i,
  S i < length (windows fuel start) ->
  start + i * stride + size < String.length s.
Proof.
  induction fuel as [|fuel IH]; intros start i H; simpl in *; [lia|].
  destruct (Nat.ltb (start + size) (String.length s)) eqn:C; simpl in H; [|lia].
  apply Nat.ltb_lt in C.
  destruct i as [|i]; [lia|].
  assert (G := IH (start + stride) i). simpl. lia.
Qed.

(** With enough fuel the last window reaches the end of the text. *)
Lemma windows_at_last : forall fuel start,
  0 < fuel ->
  String.length s + stride <= start + size + fuel * stride ->
  windows fuel start <> [] /\
  String.length s <= start + (length (windows fuel start) - 1) * stride + size.
Proof.
  induction fuel as [|fuel IH]; intros start F H; [lia|].
  simpl. split; [discriminate|].
  destruct (Nat.ltb (start + size) (String.length s)) eqn:C.
  - apply Nat.ltb_lt in C. simpl in H.
    assert (P : 0 < fuel) by (destruct fuel; [simpl in H; lia | lia]).
    destruct (IH (start + stride) P) as [N E]; [lia|].
    rewrite Nat.sub_0_r.
    destruct (length (windows fuel (start + stride))) as [|k] eqn:K.
    + destruct (windows fuel (start + stride)); [congruence | discriminate K].
    + simpl in E. rewrite Nat.sub_0_r in E. simpl. lia.
  - apply Nat.ltb_ge in C. simpl. lia.
Qed.

End Windows.

Lemma splitText_windows (c : Splitter.config) (s : string) :
  Splitter.chunkOverlap c < Splitter.chunkSize c ->
  s <> EmptyString ->
  let size := Splitter.chunkSize c in
  let stride := Splitter.chunkSize c - Splitter.chunkOverlap c in
  let ws := Splitter.splitText c s in
  ws <> [] /\
  (forall i, i < length ws ->
     nth i ws EmptyString = substring (i * stride) size s) /\
  (forall i, S i < length ws -> i * stride + size < String.length s) /\
  String.length s <= (length ws - 1) * stride + size.
Proof.
  intros O N size stride ws.
  assert (W : ws = Splitter.windows_at (String.length s) size stride 0 s).
  { unfold ws, Splitter.splitText. destruct s; [congruence | reflexivity]. }
  assert (L : 0 < String.length s) by (destruct s; [congruence | simpl; lia]).
  assert (S1 : 0 < stride) by (unfold stride; lia).
  assert (S2 : stride <= size) by (unfold stride, size; lia).
  destruct (windows_at_last s size stride (String.length s) 0 L) as [NE LAST].
  { nia. }
  rewrite W. repeat split.
  - exact NE.
  - intros i H. now rewrite windows_at_nth.
  - intros i H. apply (windows_at_inner s size stride _ 0 i H).
  - exact LAST.
Qed.

Lemma splitter_valid :
  Splitter.chunkOverlap splitter < Splitter.chunkSize splitter.
Proof. unfold splitter. cbn [Splitter.chunkOverlap Splitter.chunkSize]. lia. Qed.

Lemma splitter_windows (t : string) :
  t <> EmptyString ->
  let ws := Splitter.splitText splitter t in
  ws <> [] /\
  (forall i, i < length ws ->
     nth i ws EmptyString = substring (i * 800) 1000 t) /\
  (forall i, S i < length ws -> i * 800 + 1000 < String.length t) /\
  String.length t <= (length ws - 1) * 800 + 1000.
Proof.
  intros N. exact (splitText_windows splitter t splitter_valid N).
Qed.

Lemma splitter_empty : Splitter.splitText splitter EmptyString = [].
Proof. reflexivity. Qed.

Lemma splitter_nth (t : string) (i : nat) :
  i < length (Splitter.splitText splitter t) ->
  nth i (Splitter.splitText splitter t) EmptyString = substring (i * 800) 1000 t.
Proof.
  destruct t as [|c t'] eqn:T; [simpl; lia|]. rewrite <- T.
  assert (N : t <> EmptyString) by (rewrite T; discriminate).
  intros H. now apply (splitter_windows t N).
Qed.

Lemma splitter_inner (t : string) (i : nat) :
  S i < length (Splitter.splitText splitter t) ->
  i * 800 + 1000 < String.length t.
Proof.
  destruct t as [|c t'] eqn:T; [simpl; lia|]. rewrite <- T.
  assert (N : t <> EmptyString) by (rewrite T; discriminate).
  intros H. now apply (splitter_windows t N).
Qed.

(** Consecutive windows: the earlier one is full, and its last 200
    characters are the first 200 of the next. *)
Lemma splitter_overlap (t : string) (i : nat) :
  let ws := Splitter.splitText splitter t in
  S i < length ws ->
  String.length (nth i ws EmptyString) = 1000 /\
  200 < String.length (nth (S i) ws EmptyString) /\
  substring 800 200 (nth i ws EmptyString) =
    substring 0 200 (nth (S i) ws EmptyString).
Proof.
  intros ws H. subst ws.
  assert (I := splitter_inner t i H).
  rewrite (splitter_nth t i) by lia.
  rewrite (splitter_nth t (S i)) by exact H.
  rewrite !length_substring, !substring_substring by lia.
  repeat split; try lia.
  f_equal. lia.
Qed.

(** The last window is not empty and ends where the text ends. *)
Lemma splitter_last (t : string) :
  t <> EmptyString ->
  let ws := Splitter.splitText splitter t in
  let last := nth (length ws - 1) ws EmptyString in
  ws <> [] /\
  0 < String.length last <= 1000 /\
  (length ws - 1) * 800 + String.length last = String.length t.
Proof.
  intros N ws last.
  destruct (splitter_windows t N) as (NE & _ & _ & E). fold ws in NE, E.
  assert (P : 0 < length ws) by (destruct ws; [congruence | simpl; lia]).
  assert (L : 0 < String.length t) by (destruct t; [congruence | simpl; lia]).
  assert (B : (length ws - 1) * 800 < String.length t).
  { destruct (length ws - 1) as [|k] eqn:K; [simpl; lia|].
    assert (I := splitter_inner t k). fold ws in I. lia. }
  unfold last, ws. rewrite splitter_nth by (fold ws; lia).
  rewrite length_substring. fold ws.
  repeat split; try assumption; lia.
Qed.

Lemma splitter_2200 (t : string) :
  String.length t = 2200 ->
  Splitter.splitText splitter t =
    [substring 0 1000 t; substring 800 1000 t; substring 1600 600 t].
Proof.
  intros L.
  assert (N : t <> EmptyString) by (intros ->; discriminate L).
  destruct (splitter_windows t N) as (_ & _ & _ & E).
  assert (I := splitter_inner t 2).
  assert (X := splitter_nth t).
  remember (Splitter.splitText splitter t) as ws eqn:W.
  assert (C : length ws = 3) by lia.
  destruct ws as [|a [|b [|c [|d rest]]]]; try discriminate C.
  assert (A0 := X 0). assert (A1 := X 1). assert (A2 := X 2).
  cbn [nth length] in A0, A1, A2.
  rewrite A0, A1, A2 by lia.
  f_equal. f_equal. f_equal.
  change (2 * 800) with 1600. apply substring_clip; lia.
Qed.

(* ------------------------------------------------------------------------- *)
(** ** Properties of ingestion *)
(* ------------------------------------------------------------------------- *)

Lemma embed_all_length : forall texts vs,
  embed_all texts = Return vs -> length vs = length texts.
Proof.
  induction texts as [|t rest IH]; simpl; intros vs H.
  - injection H as <-. reflexivity.
  - destruct (embed t); [|discriminate].
    destruct (embed_all rest) as [vs'|]; [|discriminate].
    injection H as <-. simpl. f_equal. now apply IH.
Qed.

Lemma rows_of_content : forall docs vs,
  length vs = length docs ->
  map content (rows_of docs vs) = map pageContent docs.
Proof.
  unfold rows_of.
  induction docs as [|d rest IH]; intros [|v vs] H; simpl in *;
    try discriminate; [reflexivity|].
  f_equal. apply IH. lia.
Qed.

Lemma rows_of_metadata (P : props -> Prop) : forall docs vs,
  Forall (fun d => P (metadata d)) docs ->
  Forall (fun r => P (row_metadata r)) (rows_of docs vs).
Proof.
  unfold rows_of.
  induction docs as [|d rest IH]; intros vs H; simpl; [constructor|].
  destruct vs as [|v vs]; simpl; [constructor|].
  inversion H; subst. constructor; [assumption | now apply IH].
Qed.

Lemma rows_of_nonempty docs vs :
  docs <> [] -> length vs = length docs -> rows_of docs vs <> [].
Proof.
  destruct docs as [|d rest]; [congruence|].
  destruct vs as [|v vs]; simpl; [discriminate | discriminate].
Qed.

Lemma addDocuments_run docs vs w :
  embed_all (map pageContent docs) = Return vs ->
  insert_fault (rows_of docs vs) = None ->
  addDocuments docs w = (Return tt, with_rows (rows_of docs vs) w).
Proof.
  intros E I. unfold addDocuments, bind, eval. rewrite E, I. reflexivity.
Qed.

(** Whatever happens, [addDocuments] appends to the table either nothing or
    one row per document, and sends nothing. *)
Lemma addDocuments_effect docs w :
  exists o new w',
    addDocuments docs w = (o, w') /\
    table w' = (table w ++ new)%list /\
    console w' = console w /\
    responses w' = responses w /\
    (new = [] \/ exists vs, new = rows_of docs vs).
Proof.
  unfold addDocuments, bind, eval.
  destruct (embed_all (map pageContent docs)) as [vs|e].
  - destruct (insert_fault (rows_of docs vs)) as [e|].
    + exists (Throw e), [], w. rewrite app_nil_r. unfold throw. auto 6.
    + eexists; eexists; eexists. split; [reflexivity|]. simpl. eauto 6.
  - exists (Throw e), [], w. rewrite app_nil_r. auto 6.
Qed.

Lemma get_prop_object v name x :
  get_prop v name = Return x -> x <> VUndefined -> exists ps, v = VObj ps.
Proof.
  destruct v; simpl; intros H N; try discriminate;
    try (injection H as <-; congruence).
  eauto.
Qed.

Lemma get_prop_returns ps name : exists x, get_prop (VObj ps) name = Return x.
Proof. simpl. destruct (lookup name ps); eauto. Qed.

Lemma video_chunks_of_string videoData t id :
  get_prop videoData "transcript" = Return (VStr t) ->
  get_prop videoData "video_id" = Return id ->
  video_chunks videoData =
    Return (map (fun text => mkDocument text [("video_id", id)])
                (Splitter.splitText splitter t)).
Proof.
  intros T I. unfold video_chunks. rewrite T, I. simpl.
  now rewrite app_nil_r.
Qed.

Lemma video_chunks_metadata videoData id chunks :
  get_prop videoData "video_id" = Return id ->
  video_chunks videoData = Return chunks ->
  Forall (fun d => metadata d = [("video_id", id)]) chunks.
Proof.
  intros I. unfold video_chunks. rewrite I.
  destruct (get_prop videoData "transcript") as [transcript|]; [|discriminate].
  destruct (new_Document transcript [("video_id", id)]) as [doc|] eqn:D;
    [|discriminate].
  intros H. injection H as <-.
  assert (M : metadata doc = [("video_id", id)]).
  { unfold new_Document in D. destruct transcript;
      try (destruct (coerce_content _); [|discriminate]);
      injection D as <-; reflexivity. }
  unfold Splitter.splitDocuments. simpl. rewrite app_nil_r.
  apply Forall_forall. intros d H. apply in_map_iff in H.
  destruct H as [text [<- _]]. exact M.
Qed.

Lemma addYT_stores videoData id chunks vs w :
  get_prop videoData "video_id" = Return id ->
  video_chunks videoData = Return chunks ->
  embed_all (map pageContent chunks) = Return vs ->
  insert_fault (rows_of chunks vs) = None ->
  addYTVideoToVectorStore videoData w =
    (Return tt,
     mkWorld (console w ++ [adding_line id])%list
             (table w ++ rows_of chunks vs)%list (responses w)).
Proof.
  intros I C E F.
  unfold addYTVideoToVectorStore, bind, try_catch, eval, console_log, write.
  rewrite I, C.
  erewrite addDocuments_run by eassumption. reflexivity.
Qed.

(** On an item whose [video_id] can be read, the call returns normally
    whatever the splitter, the embedding provider and the database do; it
    sends nothing, and the rows it appends carry the item's [video_id]. *)
Lemma addYT_effect videoData id w :
  get_prop videoData "video_id" = Return id ->
  exists new w',
    addYTVideoToVectorStore videoData w = (Return tt, w') /\
    table w' = (table w ++ new)%list /\
    responses w' = responses w /\
    Forall (fun r => row_metadata r = [("video_id", id)]) new.
Proof.
  intros I.
  unfold addYTVideoToVectorStore, bind, try_catch, eval, console_log, write.
  rewrite I.
  destruct (video_chunks videoData) as [chunks|e] eqn:C.
  - match goal with |- context [addDocuments chunks ?w1] =>
      destruct (addDocuments_effect chunks w1)
        as (o & new & w' & R & T & _ & S & N)
    end.
    rewrite R. simpl in T, S.
    assert (F : Forall (fun r => row_metadata r = [("video_id", id)]) new).
    { destruct N as [-> | [vs ->]]; [constructor|].
      apply rows_of_metadata with (P := fun m => m = [("video_id", id)]).
      now apply video_chunks_metadata with videoData. }
    destruct o as [[]|e].
    + exists new, w'. auto.
    + unfold console_error, write. exists new. eexists.
      split; [reflexivity|]. simpl. auto.
  - unfold console_error, write. exists []. eexists.
    split; [reflexivity|]. simpl. rewrite app_nil_r. auto.
Qed.

Lemma pageContent_of_chunks (md : props) (texts : list string) :
  map pageContent (map (fun text => mkDocument text md) texts) = texts.
Proof. rewrite map_map. simpl. apply map_id. Qed.

(** C2.  Ingestion cuts a transcript into windows of 1000 characters that
    start every 800 characters, so that consecutive windows share exactly
    200 characters; the windows are substrings of the transcript, taken in
    order; only the last may be shorter, and it ends where the transcript
    ends.  A transcript of 2200 characters gives the three chunks 0-1000,
    800-1800 and 1600-2200, and they are what a successful call stores. *)
Theorem ingest_windows_1000_200 (videoData : value) (t : string) :
  get_prop videoData "transcript" = Return (VStr t) ->
  exists id chunks,
    get_prop videoData "video_id" = Return id /\
    video_chunks videoData = Return chunks /\
    let ws := map pageContent chunks in
    (forall w vs,
        embed_all ws = Return vs ->
        insert_fault (rows_of chunks vs) = None ->
        map content (table (snd (addYTVideoToVectorStore videoData w))) =
          (map content (table w) ++ ws)%list) /\
    (t = EmptyString -> ws = []) /\
    (t <> EmptyString ->
       ws <> [] /\
       0 < String.length (nth (length ws - 1) ws EmptyString) <= 1000 /\
       (length ws - 1) * 800
         + String.length (nth (length ws - 1) ws EmptyString)
       = String.length t) /\
    (forall i, i < length ws ->
       nth i ws EmptyString = substring (i * 800) 1000 t) /\
    (forall i, S i < length ws ->
       String.length (nth i ws EmptyString) = 1000 /\
       200 < String.length (nth (S i) ws EmptyString) /\
       substring 800 200 (nth i ws EmptyString) =
         substring 0 200 (nth (S i) ws EmptyString)) /\
    (String.length t = 2200 ->
       ws = [substring 0 1000 t; substring 800 1000 t; substring 1600 600 t]).
Proof.
  intros T.
  destruct (get_prop_object videoData "transcript" (VStr t) T) as [ps ->];
    [discriminate|].
  destruct (get_prop_returns ps "video_id") as [id I].
  assert (C := video_chunks_of_string (VObj ps) t id T I).
  exists id. eexists. split; [exact I|]. split; [exact C|].
  intros ws. subst ws. rewrite pageContent_of_chunks.
  split; [|split; [|split; [|split; [|split]]]].
  - intros w vs E F.
    rewrite (addYT_stores (VObj ps) id _ vs w I C)
      by (rewrite ?pageContent_of_chunks; assumption).
    simpl. rewrite map_app. f_equal.
    rewrite rows_of_content.
    + apply pageContent_of_chunks.
    + rewrite (embed_all_length _ _ E). now rewrite length_map.
  - intros ->. reflexivity.
  - intros N. exact (splitter_last t N).
  - intros i H. now apply splitter_nth.
  - intros i H. now apply splitter_overlap.
  - apply splitter_2200.
Qed.

(** C8, as the code has it.  Every chunk that an ingestion call stores
    carries as its [video_id] metadata the [video_id] of the item the call
    was given, as it is: nothing checks it, so it is the item's string when
    there is one and [undefined] when the item has none. *)
Theorem stored_chunks_carry_video_id (videoData : value) (w : World) :
  exists new,
    table (snd (addYTVideoToVectorStore videoData w)) = (table w ++ new)%list /\
    Forall (fun r => exists id,
              get_prop videoData "video_id" = Return id /\
              lookup "video_id" (row_metadata r) = Some id /\
              row_video_id r = id)
           new.
Proof.
  destruct (get_prop videoData "video_id") as [id|e] eqn:I.
  - destruct (addYT_effect videoData id w I) as (new & w' & R & T & _ & F).
    exists new. rewrite R. split; [exact T|].
    apply Forall_forall. intros r H.
    rewrite Forall_forall in F. specialize (F r H).
    exists id. split; [reflexivity|].
    unfold row_video_id, doc_video_id, document_of. simpl.
    rewrite F. split; reflexivity.
  - exists []. split; [|constructor].
    unfold addYTVideoToVectorStore, bind, eval. rewrite I. simpl.
    now rewrite app_nil_r.
Qed.

(** C9.  Ingestion is not idempotent.  When the embedding provider and the
    database accept the chunks of a non-empty transcript, a second call with
    the same arguments appends the same rows once more, whatever the table
    already holds. *)
Theorem ingest_twice_duplicates (videoData id : value) (t : string)
    (vs : list Vector) (w : World) :
  get_prop videoData "transcript" = Return (VStr t) ->
  get_prop videoData "video_id" = Return id ->
  t <> EmptyString ->
  embed_all (Splitter.splitText splitter t) = Return vs ->
  let chunks := map (fun text => mkDocument text [("video_id", id)])
                    (Splitter.splitText splitter t) in
  let rows := rows_of chunks vs in
  insert_fault rows = None ->
  let w1 := snd (addYTVideoToVectorStore videoData w) in
  let w2 := snd (addYTVideoToVectorStore videoData w1) in
  rows <> [] /\
  map content rows = Splitter.splitText splitter t /\
  table w1 = (table w ++ rows)%list /\
  table w2 = (table w ++ rows ++ rows)%list.
Proof.
  intros T I N E chunks rows F w1 w2.
  assert (C := video_chunks_of_string videoData t id T I). fold chunks in C.
  assert (E' : embed_all (map pageContent chunks) = Return vs).
  { unfold chunks. now rewrite pageContent_of_chunks. }
  assert (L : length vs = length chunks).
  { rewrite (embed_all_length _ _ E). unfold chunks. now rewrite length_map. }
  assert (R : forall w0, addYTVideoToVectorStore videoData w0 =
                (Return tt,
                 mkWorld (console w0 ++ [adding_line id])%list
                         (table w0 ++ rows)%list (responses w0))).
  { intros w0. now apply addYT_stores. }
  repeat split.
  - apply rows_of_nonempty; [|exact L].
    unfold chunks. destruct (splitter_windows t N) as [NE _].
    destruct (Splitter.splitText splitter t); [congruence | discriminate].
  - unfold rows. rewrite rows_of_content by exact L.
    apply pageContent_of_chunks.
  - unfold w1. now rewrite R.
  - unfold w2, w1. rewrite !R. simpl. now rewrite <- app_assoc.
Qed.

(** X11.  When splitting, embedding or storage fails, the error is logged
    and the call returns normally; nothing is stored. *)
Lemma ingest_failure_logged videoData id e w :
  get_prop videoData "video_id" = Return id ->
  ingestion_fails videoData e ->
  addYTVideoToVectorStore videoData w =
    (Return tt,
     mkWorld (console w ++ [adding_line id] ++ [adding_error_line e])%list
             (table w) (responses w)).
Proof.
  intros I F.
  unfold addYTVideoToVectorStore, addDocuments.
  cbv [bind try_catch eval console_log console_error write throw].
  rewrite I.
  destruct F as [C | (chunks & C & [E | (vs & E & S)])]; rewrite C.
  - simpl. now rewrite <- app_assoc.
  - rewrite E. simpl. now rewrite <- app_assoc.
  - rewrite E. cbv beta iota zeta. rewrite S.
    simpl. now rewrite <- app_assoc.
Qed.

(* ------------------------------------------------------------------------- *)
(** ** Properties of the webhook *)
(* ------------------------------------------------------------------------- *)

Lemma addYT_outcome video w :
  exists w',
    addYTVideoToVectorStore video w = (item_outcome video, w') /\
    responses w' = responses w.
Proof.
  unfold item_outcome.
  destruct (get_prop video "video_id") as [id|e] eqn:I.
  - destruct (addYT_effect video id w I) as (new & w' & R & _ & S & _).
    exists w'. auto.
  - exists w. split; [|reflexivity].
    unfold addYTVideoToVectorStore, bind, eval. now rewrite I.
Qed.

Lemma settle_all_ingest : forall items w,
  exists w',
    settle_all (map (fun video => addYTVideoToVectorStore video) items) w =
      (map item_outcome items, w') /\
    responses w' = responses w.
Proof.
  induction items as [|video rest IH]; intros w; simpl.
  - exists w. auto.
  - destruct (addYT_outcome video w) as (w1 & R & S1). rewrite R.
    destruct (IH w1) as (w2 & R2 & S2). rewrite R2.
    exists w2. split; [reflexivity | congruence].
Qed.

Lemma all_fulfilled_objects : forall items,
  Forall (fun v => v <> VNull /\ v <> VUndefined) items ->
  all_fulfilled (map item_outcome items) = Return (map (fun _ => tt) items).
Proof.
  induction items as [|v rest IH]; intros F; simpl; [reflexivity|].
  inversion F as [|? ? [N U] F']; subst.
  rewrite (IH F').
  unfold item_outcome.
  destruct v as [| | b | n | s | xs | ps]; simpl; try congruence.
  destruct (lookup "video_id" ps); reflexivity.
Qed.

Lemma all_fulfilled_null : forall items,
  In VNull items -> exists e, all_fulfilled (map item_outcome items) = Throw e.
Proof.
  induction items as [|v rest IH]; intros H; simpl in *; [contradiction|].
  destruct (item_outcome v) as [[]|e] eqn:O; [|eauto].
  destruct H as [-> | H]; [discriminate O|].
  destruct (IH H) as [e ->]. eauto.
Qed.

(** On an item that is neither [null] nor [undefined] the ingestion returns
    normally, whatever fails inside it. *)
Lemma ingest_failures_swallowed video w :
  video <> VNull -> video <> VUndefined ->
  exists w', addYTVideoToVectorStore video w = (Return tt, w').
Proof.
  intros N U. destruct (addYT_outcome video w) as (w' & R & _).
  exists w'. rewrite R. f_equal.
  unfold item_outcome.
  destruct video as [| | b | n | s | xs | ps]; simpl; try congruence.
  destruct (lookup "video_id" ps); reflexivity.
Qed.

(** A batch without [null] items is answered with "OK". *)
Lemma webhook_answers_OK items w :
  Forall (fun v => v <> VNull /\ v <> VUndefined) items ->
  exists w',
    post_webhook (VArr items) w = (Return tt, w') /\
    responses w' = (responses w ++ ["OK"])%list.
Proof.
  intros F. unfold post_webhook, bind, eval, body_map, promise_all.
  destruct (settle_all_ingest items w) as (w1 & R & S). rewrite R.
  rewrite (all_fulfilled_objects items F).
  unfold res_send. eexists. split; [reflexivity|]. simpl. now rewrite S.
Qed.

(** C7, where the code departs from it.  A batch that holds a [null] item
    is not answered: the handler ends in the exception thrown by
    [videoData.video_id], which [addYTVideoToVectorStore] evaluates before
    its [try] block, and no response is sent. *)
Theorem webhook_null_item_no_response (items : list value) (w : World) :
  In VNull items ->
  exists e w',
    post_webhook (VArr items) w = (Throw e, w') /\
    responses w' = responses w.
Proof.
  intros H. unfold post_webhook, bind, eval, body_map, promise_all.
  destruct (settle_all_ingest items w) as (w1 & R & S). rewrite R.
  destruct (all_fulfilled_null items H) as [e ->].
  exists e, w1. auto.
Qed.

(* ------------------------------------------------------------------------- *)
(** ** Further properties: the trigger tool *)
(* ------------------------------------------------------------------------- *)

(** The trigger resolves with a value that does not depend on the world, and
    writes at most one line, an error line, in which case the value is
    [undefined]. *)
Lemma trigger_shape url :
  exists v mid,
    (mid = [] \/ exists e, mid = [Brightdata.trigger_error_line e] /\ v = VUndefined) /\
    forall w, trigger url w =
      (Return v, mkWorld (console w ++ mid)%list (table w) (responses w)).
Proof.
  assert (Same : forall w, w = mkWorld (console w ++ [])%list (table w) (responses w)).
  { intros [c t r]. simpl. now rewrite app_nil_r. }
  destruct (fetch (request url)) as [r|e] eqn:F.
  - destruct (Brightdata.json r) as [result|e] eqn:J.
    + destruct (get_prop result "snapshot_id") as [v|e] eqn:G.
      * exists v, []. split; [now left|]. intros w.
        rewrite (trigger_json_parsed url w r result F J), G.
        f_equal. apply Same.
      * exists VUndefined, [Brightdata.trigger_error_line e].
        split; [right; eauto|]. intros w.
        now rewrite (trigger_json_parsed url w r result F J), G.
    + exists VUndefined, [Brightdata.trigger_error_line e].
      split; [right; eauto|]. intros w.
      now rewrite (trigger_json_throws url w r e F J).
  - exists VUndefined, [Brightdata.trigger_error_line e].
    split; [right; eauto|]. intros w.
    now rewrite (trigger_fetch_throws url w e F).
Qed.

(** X1.  The trigger tool never rejects: it returns to the agent what
    [triggerYoutubeVideoScrape] resolves with, leaves the table and the
    responses alone, and logs its two lines around the error line of the
    trigger, if there is one. *)
Theorem trigger_tool_never_rejects (url : string) (w : World) :
  exists v mid,
    triggerYoutubeVideoScrapeTool url w =
      (Return v,
       with_lines ([triggering_line url] ++ mid ++ [triggered_line v]) w) /\
    fst (trigger url w) = Return v /\
    (mid = [] \/
     exists e, mid = [Brightdata.trigger_error_line e] /\ v = VUndefined).
Proof.
  destruct (trigger_shape url) as (v & mid & Shape & Run).
  exists v, mid. split; [|split; [|exact Shape]].
  - unfold triggerYoutubeVideoScrapeTool, bind, console_log, write, ret.
    rewrite Run. unfold with_lines, triggering_line, triggered_line. simpl.
    now rewrite <- !app_assoc.
  - now rewrite Run.
Qed.

(** X2.  When the request to the provider throws, or its body cannot be
    parsed, the tool hands [undefined] to the agent and still logs
    "YouTube video scrape triggered". *)
Theorem trigger_tool_after_failure (url : string) (e : exn) (w : World) :
  fetch (request url) = Throw e \/
  (exists r, fetch (request url) = Return r /\ Brightdata.json r = Throw e) ->
  triggerYoutubeVideoScrapeTool url w =
    (Return VUndefined,
     with_lines [triggering_line url; Brightdata.trigger_error_line e;
                 triggered_line VUndefined] w).
Proof.
  intros H.
  assert (R : forall w0, trigger url w0 = (Return VUndefined, with_trigger_error e w0)).
  { intros w0. destruct H as [F | (r & F & J)].
    - now apply trigger_fetch_throws.
    - now apply trigger_json_throws with r. }
  unfold triggerYoutubeVideoScrapeTool, bind, console_log, write, ret.
  rewrite R. unfold with_trigger_error, with_lines. simpl.
  now rewrite <- !app_assoc.
Qed.

(* ------------------------------------------------------------------------- *)
(** ** Further properties: the retrieval tools *)
(* ------------------------------------------------------------------------- *)

(** X3.  The retrieval tools write nothing, and they have no [catch]: when
    the search fails, the tool call rejects with the error of the search. *)
Theorem retrieval_tools_propagate (query videoId : string) (w : World) :
  snd (retrieveTool query videoId w) = w /\
  snd (retrieveSimilarVideosTool query w) = w /\
  (forall e, embed query = Throw e ->
     retrieveTool query videoId w = (Throw e, w) /\
     retrieveSimilarVideosTool query w = (Throw e, w)).
Proof.
  unfold retrieveTool, retrieveSimilarVideosTool, similaritySearch, bind, eval, ret.
  destruct (embed query) as [q|e0]; simpl.
  - split; [reflexivity|]. split; [reflexivity|]. intros e H. discriminate H.
  - split; [reflexivity|]. split; [reflexivity|].
    intros e H. injection H as <-. split; reflexivity.
Qed.

(* ------------------------------------------------------------------------- *)
(** ** Further properties: ingestion *)
(* ------------------------------------------------------------------------- *)

Lemma item_outcome_throws video :
  (exists e, item_outcome video = Throw e) <->
  (video = VNull \/ video = VUndefined).
Proof.
  unfold item_outcome.
  destruct video as [| | b | n | s | xs | ps]; simpl;
    try (split; [intros [e H]; discriminate H | intros [H | H]; discriminate H]).
  - split; [auto | eauto].
  - split; [auto | eauto].
  - destruct (lookup "video_id" ps);
      (split; [intros [e H]; discriminate H | intros [H | H]; discriminate H]).
Qed.

(** X4.  [addYTVideoToVectorStore] rejects exactly on a [null] or
    [undefined] item, and then before it has logged or stored anything; on
    every other value it returns normally. *)
Theorem ingest_rejects_iff_nullish (videoData : value) (w : World) :
  ((exists e w', addYTVideoToVectorStore videoData w = (Throw e, w')) <->
   (videoData = VNull \/ videoData = VUndefined)) /\
  (forall e w', addYTVideoToVectorStore videoData w = (Throw e, w') -> w' = w) /\
  ((exists w', addYTVideoToVectorStore videoData w = (Return tt, w')) <->
   (videoData <> VNull /\ videoData <> VUndefined)).
Proof.
  destruct (addYT_outcome videoData w) as (w1 & R & _).
  assert (T := item_outcome_throws videoData).
  split; [|split].
  - split.
    + intros (e & w' & H). apply T. exists e. congruence.
    + intros N. apply T in N. destruct N as [e E].
      exists e, w1. now rewrite R, E.
  - intros e w' H.
    destruct (get_prop videoData "video_id") as [id|e0] eqn:I.
    + rewrite R in H. unfold item_outcome in H. rewrite I in H.
      discriminate H.
    + unfold addYTVideoToVectorStore, bind, eval in H. rewrite I in H.
      now injection H as _ <-.
  - split.
    + intros (w' & H). split; intros ->; rewrite R in H; discriminate H.
    + intros [N U]. exists w1. rewrite R. f_equal.
      destruct (item_outcome videoData) as [[]|e] eqn:O; [reflexivity|].
      exfalso. destruct (proj1 T (ex_intro _ e eq_refl)); contradiction.
Qed.

Lemma filter_none {A} (f : A -> bool) (l : list A) :
  Forall (fun x => f x = false) l -> List.filter f l = [].
Proof.
  induction 1 as [|x rest H _ IH]; simpl; [reflexivity|]. now rewrite H.
Qed.

Lemma tagged_rows_do_not_match (id : value) (other : string) (rows : list Row) :
  id <> VStr other ->
  Forall (fun r => row_metadata r = [("video_id", id)]) rows ->
  Forall (fun r => matches [("video_id", other)] r = false) rows.
Proof.
  intros N F. apply Forall_forall. intros r H.
  rewrite Forall_forall in F. specialize (F r H).
  destruct (matches [("video_id", other)] r) eqn:M; [|reflexivity].
  apply matches_video_id in M. rewrite F in M. simpl in M.
  injection M as M. contradiction.
Qed.

(** X5.  Ingesting a video never changes what [retrieve] returns for another
    video, whether the ingestion stores its chunks or fails. *)
Theorem ingest_keeps_other_videos (videoData id : value) (other query : string)
    (w : World) :
  get_prop videoData "video_id" = Return id ->
  id <> VStr other ->
  fst (retrieveTool query other (snd (addYTVideoToVectorStore videoData w))) =
  fst (retrieveTool query other w).
Proof.
  intros I N.
  destruct (addYT_effect videoData id w I) as (new & w' & R & T & _ & F).
  rewrite R. simpl snd.
  destruct (embed query) as [q|e] eqn:E.
  - rewrite !(retrieveTool_run query other q _ E). simpl.
    unfold nearest. rewrite T, filter_app.
    rewrite (filter_none _ new (tagged_rows_do_not_match id other new N F)).
    now rewrite app_nil_r.
  - unfold retrieveTool, similaritySearch, bind, eval. now rewrite E.
Qed.

Lemma filter_all {A} (f : A -> bool) (l : list A) :
  Forall (fun x => f x = true) l -> List.filter f l = l.
Proof.
  induction 1 as [|x rest H _ IH]; simpl; [reflexivity|]. now rewrite H, IH.
Qed.

Lemma rows_of_length docs vs : length (rows_of docs vs) <= length docs.
Proof.
  unfold rows_of. rewrite length_map, length_combine. apply Nat.le_min_l.
Qed.

(** X6.  Round trip on the stored chunks: once an ingestion call has stored
    the chunks cut from its transcript, three at most, for a video that had
    no chunk, [retrieve] for that video returns the texts of exactly those
    chunks, each once, whatever the query. *)
Theorem ingest_then_retrieve (videoData : value) (id query : string)
    (chunks : list Document) (vs : list Vector) (q : Vector) (w : World) :
  get_prop videoData "video_id" = Return (VStr id) ->
  video_chunks videoData = Return chunks ->
  length chunks <= 3 ->
  embed_all (map pageContent chunks) = Return vs ->
  insert_fault (rows_of chunks vs) = None ->
  (forall r, In r (table w) ->
     lookup "video_id" (row_metadata r) <> Some (VStr id)) ->
  embed query = Return q ->
  exists texts,
    Permutation texts (map pageContent chunks) /\
    fst (retrieveTool query id (snd (addYTVideoToVectorStore videoData w))) =
      Return (join separator texts).
Proof.
  intros I C L E F Fresh Q.
  set (rows := rows_of chunks vs).
  exists (map content (rank q rows)). split.
  - rewrite <- (rows_of_content chunks vs).
    + apply Permutation_map. apply rank_perm.
    + rewrite (embed_all_length _ _ E). apply length_map.
  - rewrite (addYT_stores videoData (VStr id) chunks vs w I C E F).
    rewrite (retrieveTool_run query id q _ Q). cbn [fst snd table].
    fold rows. unfold nearest. rewrite filter_app.
    rewrite (filter_none _ (table w)).
    + rewrite (filter_all _ rows).
      * cbn [app]. rewrite firstn_all2; [reflexivity|].
        rewrite (Permutation_length (rank_perm q rows)).
        unfold rows. eapply Nat.le_trans; [apply rows_of_length | exact L].
      * assert (M := rows_of_metadata
                       (fun m => m = [("video_id", VStr id)]) chunks vs
                       (video_chunks_metadata videoData (VStr id) chunks I C)).
        apply Forall_forall. intros r H.
        rewrite Forall_forall in M. specialize (M r H). simpl in M.
        apply matches_video_id. now rewrite M.
    + apply Forall_forall. intros r H.
      destruct (matches [("video_id", id)] r) eqn:M; [|reflexivity].
      apply matches_video_id in M. exfalso. exact (Fresh r H M).
Qed.

(* ------------------------------------------------------------------------- *)
(** ** Further properties: the webhook *)
(* ------------------------------------------------------------------------- *)

Lemma all_fulfilled_returns : forall items l,
  all_fulfilled (map item_outcome items) = Return l ->
  Forall (fun v => v <> VNull /\ v <> VUndefined) items.
Proof.
  induction items as [|v rest IH]; intros l H; simpl in H; [constructor|].
  destruct (item_outcome v) as [[]|e] eqn:O; [|discriminate H].
  destruct (all_fulfilled (map item_outcome rest)) as [l'|e] eqn:A;
    [|discriminate H].
  constructor; [|now apply (IH l')].
  split; intros ->; discriminate O.
Qed.

(** X7.  [POST /webhook] answers "OK" exactly when the body is an array
    without [null] items, whatever fails while the items are ingested; in
    every other case the handler rejects and no response is sent. *)
Theorem webhook_answers_iff (body : value) (w : World) :
  ((exists w', post_webhook body w = (Return tt, w')) <->
   (exists items, body = VArr items /\
      Forall (fun v => v <> VNull /\ v <> VUndefined) items)) /\
  (forall w', post_webhook body w = (Return tt, w') ->
     responses w' = (responses w ++ ["OK"])%list) /\
  (forall e w', post_webhook body w = (Throw e, w') ->
     responses w' = responses w).
Proof.
  destruct body as [| | b | n | s | items | ps];
    try (split; [split; [intros (w' & H); discriminate H
                        | intros (items & H & _); discriminate H]
                | split; [intros w' H; discriminate H
                         | intros e w' H; injection H as _ <-; reflexivity]]).
  unfold post_webhook, bind, eval, body_map, promise_all.
  destruct (settle_all_ingest items w) as (w1 & R & S). rewrite R.
  destruct (all_fulfilled (map item_outcome items)) as [l|e] eqn:A.
  - unfold res_send. split; [split|split].
    + intros _. exists items. split; [reflexivity|].
      now apply all_fulfilled_returns with l.
    + intros _. eexists. reflexivity.
    + intros w' H. injection H as <-. simpl. now rewrite S.
    + intros e w' H. discriminate H.
  - split; [split|split].
    + intros (w' & H). discriminate H.
    + intros (items' & E & F). injection E as <-.
      rewrite (all_fulfilled_objects items F) in A. discriminate A.
    + intros w' H. discriminate H.
    + intros e' w' H. injection H as _ <-. exact S.
Qed.

Lemma addYT_table video w :
  exists new,
    table (snd (addYTVideoToVectorStore video w)) = (table w ++ new)%list /\
    Forall (fun r => exists id, get_prop video "video_id" = Return id /\
                                row_metadata r = [("video_id", id)])
           new.
Proof.
  destruct (get_prop video "video_id") as [id|e] eqn:I.
  - destruct (addYT_effect video id w I) as (new & w' & R & T & _ & F).
    exists new. rewrite R. split; [exact T|].
    apply Forall_forall. intros r H. rewrite Forall_forall in F. eauto.
  - exists []. split; [|constructor].
    unfold addYTVideoToVectorStore, bind, eval. rewrite I. simpl.
    now rewrite app_nil_r.
Qed.

Lemma settle_all_table : forall items w,
  exists new,
    table (snd (settle_all
                  (map (fun video => addYTVideoToVectorStore video) items) w))
      = (table w ++ new)%list /\
    Forall (fun r => exists item id,
              In item items /\ get_prop item "video_id" = Return id /\
              row_metadata r = [("video_id", id)])
           new.
Proof.
  induction items as [|video rest IH]; intros w; simpl.
  - exists []. split; [now rewrite app_nil_r | constructor].
  - destruct (addYT_table video w) as (new1 & T1 & F1).
    destruct (addYTVideoToVectorStore video w) as [o w1]. simpl in T1.
    destruct (IH w1) as (new2 & T2 & F2).
    destruct (settle_all _ w1) as [os w2]. simpl in T2 |- *.
    exists (new1 ++ new2)%list. split.
    + now rewrite T2, T1, app_assoc.
    + apply Forall_app. split.
      * apply Forall_forall. intros r H. rewrite Forall_forall in F1.
        destruct (F1 r H) as (id & G & M). exists video, id. auto.
      * apply Forall_forall. intros r H. rewrite Forall_forall in F2.
        destruct (F2 r H) as (item & id & In2 & G & M).
        exists item, id. auto.
Qed.

(** X8.  Whatever the body, [POST /webhook] only appends to the table: the
    rows that were there stay, in place, and every row it adds is tagged
    with the [video_id] of an item of the batch. *)
Theorem webhook_appends_tagged_rows (body : value) (w : World) :
  exists new,
    table (snd (post_webhook body w)) = (table w ++ new)%list /\
    Forall (fun r => exists items item id,
              body = VArr items /\ In item items /\
              get_prop item "video_id" = Return id /\
              row_metadata r = [("video_id", id)])
           new.
Proof.
  destruct body as [| | b | n | s | items | ps];
    try (exists []; split; [simpl; now rewrite app_nil_r | constructor]).
  destruct (settle_all_table items w) as (new & T & F).
  exists new. split.
  - unfold post_webhook, bind, eval, body_map, promise_all, res_send.
    destruct (settle_all _ w) as [os w1]. simpl in T.
    destruct (all_fulfilled os); simpl; exact T.
  - apply Forall_forall. intros r H. rewrite Forall_forall in F.
    destruct (F r H) as (item & id & I & G & M).
    exists items, item, id. auto.
Qed.

(* ------------------------------------------------------------------------- *)
(** ** Further properties: the generate endpoint *)
(* ------------------------------------------------------------------------- *)

Lemma post_generate_run body query thread_id w :
  get_prop body "query" = Return query ->
  get_prop body "thread_id" = Return thread_id ->
  post_generate body w =
    match agent_invoke (user_input query) (thread_config thread_id)
            (with_lines [generate_line query thread_id] w) with
    | (Throw e, w2) => (Throw e, w2)
    | (Return results, w2) =>
        match get_prop results "messages" with
        | Throw e => (Throw e, w2)
        | Return messages =>
            match at_last messages with
            | Throw e => (Throw e, w2)
            | Return final =>
                match optional_prop final "content" with
                | Throw e => (Throw e, w2)
                | Return content => res_send_value content w2
                end
            end
        end
    end.
Proof.
  intros Q T.
  unfold post_generate, bind, eval, console_log, write. rewrite Q, T.
  unfold with_lines, generate_line.
  destruct (agent_invoke _ _ _) as [[results|e] w2]; [|reflexivity].
  destruct (get_prop results "messages") as [messages|e]; [|reflexivity].
  destruct (at_last messages) as [final|e]; [|reflexivity].
  destruct (optional_prop final "content") as [content|e]; reflexivity.
Qed.

(** X9.  [POST /generate] answers with the content of the last message of
    the agent's state, and with nothing of the messages before it. *)
Theorem generate_sends_last_message (body query thread_id results m : value)
    (earlier : list value) (text : string) (w w2 : World) :
  get_prop body "query" = Return query ->
  get_prop body "thread_id" = Return thread_id ->
  agent_invoke (user_input query) (thread_config thread_id)
    (with_lines [generate_line query thread_id] w) = (Return results, w2) ->
  get_prop results "messages" = Return (VArr (earlier ++ [m])) ->
  get_prop m "content" = Return (VStr text) ->
  post_generate body w = (Return tt, with_response text w2).
Proof.
  intros Q T A M C.
  rewrite (post_generate_run body query thread_id w Q T), A, M.
  unfold at_last. rewrite last_last.
  assert (O : optional_prop m "content" = Return (VStr text)).
  { destruct m; simpl in *; try discriminate C; exact C. }
  rewrite O. reflexivity.
Qed.

(** X10.  [POST /generate] has no [catch]: when the agent rejects, the
    handler rejects with the same error and sends nothing.  When the agent's
    state holds no message, the optional chaining makes the handler answer
    with the body of [undefined] instead of throwing; it guards the message
    only, so a state without [messages] makes the handler reject. *)
Theorem generate_failure_and_empty (body query thread_id : value)
    (w w2 : World) :
  get_prop body "query" = Return query ->
  get_prop body "thread_id" = Return thread_id ->
  (forall e,
     agent_invoke (user_input query) (thread_config thread_id)
       (with_lines [generate_line query thread_id] w) = (Throw e, w2) ->
     post_generate body w = (Throw e, w2)) /\
  (forall results,
     agent_invoke (user_input query) (thread_config thread_id)
       (with_lines [generate_line query thread_id] w) = (Return results, w2) ->
     get_prop results "messages" = Return (VArr []) ->
     post_generate body w =
       (Return tt, with_response (express_body VUndefined) w2)) /\
  (forall results,
     agent_invoke (user_input query) (thread_config thread_id)
       (with_lines [generate_line query thread_id] w) = (Return results, w2) ->
     get_prop results "messages" = Return VUndefined ->
     post_generate body w =
       (Throw (TypeError "Cannot read properties of undefined (reading 'at')"),
        w2)).
Proof.
  intros Q T. split; [|split].
  - intros e A. now rewrite (post_generate_run body query thread_id w Q T), A.
  - intros results A M.
    now rewrite (post_generate_run body query thread_id w Q T), A, M.
  - intros results A M.
    now rewrite (post_generate_run body query thread_id w Q T), A, M.
Qed.

End Backend.



(* ------------------------------------------------------------------------- *)
(** ** The statements on the concrete environment *)
(* ------------------------------------------------------------------------- *)

Module Run.

Abbreviation trigger fetch :=
  (Brightdata.triggerYoutubeVideoScrape
     Demo.api_url Demo.api_key Demo.stringify fetch).
Abbreviation request :=
  (Brightdata.trigger_request Demo.api_url Demo.api_key Demo.stringify).
Abbreviation ingest :=
  (addYTVideoToVectorStore Demo.embed Demo.insert_ok Demo.coerce_content).
Abbreviation webhook :=
  (post_webhook Demo.embed Demo.insert_ok Demo.coerce_content).
Abbreviation retrieve := (retrieveTool Demo.embed Demo.distance).
Abbreviation similar := (retrieveSimilarVideosTool Demo.embed Demo.distance).

End Run.
Import Run.

(** C1 fails on the code: a provider answers HTTP 500 with a JSON error
    body; the call has failed, and yet the operation resolves with
    [undefined], a falsy handle, instead of failing. *)
Lemma trigger_http_500_counterexample :
  call_failed (Demo.provider_500 (request Demo.video_url)) /\
  trigger Demo.provider_500 Demo.video_url Demo.world0 =
    (Return VUndefined, Demo.world0) /\
  truthy VUndefined = false /\
  ~ (exists e w',
       trigger Demo.provider_500 Demo.video_url Demo.world0 = (Throw e, w')).
Proof.
  split; [|split; [|split]].
  - apply non_2xx. simpl. lia.
  - reflexivity.
  - reflexivity.
  - intros (e & w' & H). discriminate H.
Qed.

Lemma trigger_failure_resolves_witness :
  call_failed (Scenario.provider_500_id (request Demo.video_url)) /\
  trigger Scenario.provider_500_id Demo.video_url Demo.world0 =
    (Return (VStr "s_err500"), Demo.world0).
Proof.
  assert (F : call_failed (Scenario.provider_500_id (request Demo.video_url))).
  { apply non_2xx. simpl. lia. }
  split; [exact F|].
  destruct (trigger_failure_resolves Demo.api_url Demo.api_key Demo.stringify
              Scenario.provider_500_id Demo.video_url Demo.world0 F)
    as (v & w' & R & _ & _ & K).
  destruct (K _ _ (VStr "s_err500") eq_refl eq_refl eq_refl) as [-> ->].
  exact R.
Defined.

Lemma trigger_never_rejects_witness :
  Demo.provider_down (request Demo.video_url) = Throw (TypeError "fetch failed") /\
  trigger Demo.provider_down Demo.video_url Demo.world0 =
    (Return VUndefined,
     with_trigger_error (TypeError "fetch failed") Demo.world0).
Proof.
  split; [reflexivity|].
  exact (proj1 (proj2 (trigger_never_rejects Demo.api_url Demo.api_key
                         Demo.stringify Demo.provider_down Demo.video_url
                         Demo.world0))
           (TypeError "fetch failed") eq_refl).
Defined.

Lemma ingest_windows_witness :
  get_prop (Demo.video "abc12345678" Demo.transcript_2200) "transcript" =
    Return (VStr Demo.transcript_2200) /\
  exists id chunks,
    get_prop (Demo.video "abc12345678" Demo.transcript_2200) "video_id" =
      Return id /\
    video_chunks Demo.coerce_content
      (Demo.video "abc12345678" Demo.transcript_2200) = Return chunks /\
    map pageContent chunks =
      [substring 0 1000 Demo.transcript_2200;
       substring 800 1000 Demo.transcript_2200;
       substring 1600 600 Demo.transcript_2200].
Proof.
  split; [reflexivity|].
  destruct (ingest_windows_1000_200 Demo.embed Demo.insert_ok
              Demo.coerce_content
              (Demo.video "abc12345678" Demo.transcript_2200)
              Demo.transcript_2200 eq_refl)
    as (id & chunks & I & C & _ & _ & _ & _ & _ & K).
  exists id, chunks. split; [exact I|]. split; [exact C|].
  apply K. vm_compute. reflexivity.
Defined.

Lemma retrieve_only_requested_video_witness :
  Demo.embed "ab" = Return [2%Q] /\
  Forall (fun r => In r (table Demo.world3) /\
                   lookup "video_id" (row_metadata r)
                     = Some (VStr "abc12345678") /\
                   row_video_id r = VStr "abc12345678")
         (nearest Demo.distance [2%Q] 3 [("video_id", "abc12345678")]
                  (table Demo.world3)).
Proof.
  split; [reflexivity|].
  exact (proj2 (retrieve_only_requested_video Demo.embed Demo.distance
                  "ab" "abc12345678" [2%Q] Demo.world3 eq_refl)).
Defined.

Lemma retrieval_result_bounds_witness :
  Demo.embed "ab" = Return [2%Q] /\
  length (nearest Demo.distance [2%Q] 3 [("video_id", "abc12345678")]
                  (table Demo.world3)) <= 3 /\
  length (nearest Demo.distance [2%Q] 30 [] (table Demo.world3)) <= 30.
Proof.
  split; [reflexivity|].
  destruct (retrieval_result_bounds Demo.embed Demo.distance
              "ab" "abc12345678" [2%Q] Demo.world3 eq_refl)
    as [[_ A] [_ B]].
  split; [exact A | exact B].
Defined.

(** C5 fails on the code: two chunks match, and the result is not their
    text joined with a newline: the code joins with a newline followed by a
    space. *)
Lemma retrieve_separator_counterexample :
  map content (nearest Demo.distance [2%Q] 3 [("video_id", "abc12345678")]
                 (table Demo.world3)) = ["beta"; "alpha"] /\
  retrieve "ab" "abc12345678" Demo.world3 =
    (Return ("beta" ++ String nl " alpha"), Demo.world3) /\
  retrieve "ab" "abc12345678" Demo.world3 <>
    (Return (join (String nl EmptyString) ["beta"; "alpha"]), Demo.world3).
Proof.
  split; [|split].
  - vm_compute. reflexivity.
  - vm_compute. reflexivity.
  - vm_compute. intros H. discriminate H.
Qed.

Lemma retrieve_joins_chunk_text_witness :
  Demo.embed "ab" = Return [2%Q] /\
  retrieve "ab" "abc12345678" Demo.world3 =
    (Return ("beta" ++ String nl " alpha"), Demo.world3) /\
  retrieve "ab" "nonexistent_video" Demo.world3 =
    (Return EmptyString, Demo.world3).
Proof.
  split; [reflexivity|]. split.
  - exact (proj1 (retrieve_joins_chunk_text Demo.embed Demo.distance
                    "ab" "abc12345678" [2%Q] Demo.world3 eq_refl)).
  - apply (proj2 (proj2 (retrieve_joins_chunk_text Demo.embed Demo.distance
                           "ab" "nonexistent_video" [2%Q] Demo.world3
                           eq_refl))).
    intros r H. simpl in H.
    destruct H as [<- | [<- | [<- | []]]]; simpl; discriminate.
Defined.

Lemma similar_videos_ids_witness :
  Demo.embed "ab" = Return [2%Q] /\
  similar "ab" Demo.world3 =
    (Return ("abc12345678" ++ String nl (" abc12345678" ++ String nl " zzz00000000")),
     Demo.world3).
Proof.
  split; [reflexivity|].
  exact (proj1 (similar_videos_ids_in_match_order Demo.embed Demo.distance
                  "ab" [2%Q] Demo.world3 eq_refl)).
Defined.

Lemma webhook_null_item_witness :
  In VNull [VNull; Demo.hello] /\
  exists e w',
    webhook (VArr [VNull; Demo.hello]) Demo.world0 = (Throw e, w') /\
    responses w' = responses Demo.world0.
Proof.
  assert (H : In VNull [VNull; Demo.hello]) by (left; reflexivity).
  split; [exact H|].
  exact (webhook_null_item_no_response Demo.embed Demo.insert_ok
           Demo.coerce_content [VNull; Demo.hello] Demo.world0 H).
Defined.

Lemma stored_chunks_carry_video_id_witness :
  table (snd (ingest Demo.hello Demo.world0)) = [Demo.hello_row] /\
  Forall (fun r => exists id,
            get_prop Demo.hello "video_id" = Return id /\
            lookup "video_id" (row_metadata r) = Some id /\
            row_video_id r = id)
         [Demo.hello_row].
Proof.
  destruct (stored_chunks_carry_video_id Demo.embed Demo.insert_ok
              Demo.coerce_content Demo.hello Demo.world0)
    as (new & T & F).
  assert (N : new = [Demo.hello_row]).
  { vm_compute in T. now symmetry. }
  rewrite N in F. split; [reflexivity | exact F].
Defined.

(** C8 fails on the code: an item with a transcript and no [video_id] is
    ingested without complaint, its chunk is stored with [video_id]
    [undefined], and the webhook answers "OK". *)
Lemma ingest_without_video_id_counterexample :
  ingest Scenario.untagged Demo.world0 =
    (Return tt,
     mkWorld [adding_line VUndefined] [Scenario.untagged_row] []) /\
  row_video_id Scenario.untagged_row = VUndefined /\
  (forall id : string, row_video_id Scenario.untagged_row <> VStr id) /\
  exists w',
    webhook (VArr [Scenario.untagged]) Demo.world0 = (Return tt, w') /\
    table w' = [Scenario.untagged_row] /\
    responses w' = ["OK"].
Proof.
  split; [vm_compute; reflexivity|]. split; [reflexivity|].
  split; [intros id H; discriminate H|].
  eexists. split; [vm_compute; reflexivity|]. split; reflexivity.
Qed.

Lemma ingest_twice_duplicates_witness :
  get_prop Demo.hello "transcript" = Return (VStr "hello world") /\
  get_prop Demo.hello "video_id" = Return (VStr "abc12345678") /\
  "hello world" <> EmptyString /\
  embed_all Demo.embed (Splitter.splitText splitter "hello world")
    = Return [[11%Q]] /\
  Demo.insert_ok [Demo.hello_row] = None /\
  table (snd (ingest Demo.hello Demo.world0)) = [Demo.hello_row] /\
  table (snd (ingest Demo.hello (snd (ingest Demo.hello Demo.world0)))) =
    [Demo.hello_row; Demo.hello_row].
Proof.
  assert (N : "hello world" <> EmptyString) by discriminate.
  assert (E : embed_all Demo.embed (Splitter.splitText splitter "hello world")
              = Return [[11%Q]]) by (vm_compute; reflexivity).
  split; [reflexivity|]. split; [reflexivity|]. split; [exact N|].
  split; [exact E|]. split; [reflexivity|].
  destruct (ingest_twice_duplicates Demo.embed Demo.insert_ok
              Demo.coerce_content Demo.hello (VStr "abc12345678")
              "hello world" [[11%Q]] Demo.world0
              eq_refl eq_refl N E eq_refl)
    as (_ & _ & A & B).
  split; [exact A | exact B].
Defined.

(** The scenario of a batch with one item that lacks its transcript and one
    valid item: the answer is "OK" and only the chunks of the valid item are
    in the table. *)
Example webhook_missing_transcript :
  exists w',
    webhook (VArr [VObj [("video_id", VStr "zzz00000000")]; Demo.hello])
            Demo.world0 = (Return tt, w') /\
    responses w' = ["OK"] /\
    table w' = [Demo.hello_row].
Proof. eexists. split; [vm_compute; reflexivity|]. split; reflexivity. Qed.

(** A provider that starts the job: the handle is its [snapshot_id]. *)
Example trigger_started :
  trigger Demo.provider_ok Demo.video_url Demo.world0 =
    (Return (VStr "s_m4x8q2"), Demo.world0).
Proof. reflexivity. Qed.

(** Window lengths at the boundaries of the stride. *)
Example window_lengths :
  map (fun n => map String.length
                  (Splitter.splitText splitter (substring 0 n Demo.transcript_2200)))
      [0; 5; 1000; 1001; 1800; 1801; 2200] =
    [[]; [5]; [1000]; [1000; 201]; [1000; 1000]; [1000; 1000; 201];
     [1000; 1000; 600]].
Proof. vm_compute. reflexivity. Qed.

(* ------------------------------------------------------------------------- *)
(** ** The further properties on concrete environments *)
(* ------------------------------------------------------------------------- *)

Module RunMore.

Abbreviation trigger_tool fetch :=
  (triggerYoutubeVideoScrapeTool
     Demo.api_url Demo.api_key Demo.stringify fetch).
Abbreviation generate agent :=
  (post_generate agent Scenario.express_body).
Abbreviation ingest_offline :=
  (addYTVideoToVectorStore Scenario.embed_down Demo.insert_ok
     Demo.coerce_content).

End RunMore.
Import RunMore.

Lemma trigger_tool_never_rejects_witness :
  trigger_tool Demo.provider_ok Demo.video_url Demo.world0 =
    (Return (VStr "s_m4x8q2"),
     with_lines [triggering_line Demo.video_url;
                 triggered_line (VStr "s_m4x8q2")] Demo.world0).
Proof.
  destruct (trigger_tool_never_rejects Demo.api_url Demo.api_key Demo.stringify
              Demo.provider_ok Demo.video_url Demo.world0)
    as (v & mid & R & V & S).
  vm_compute in V. injection V as <-.
  destruct S as [-> | (e & _ & D)]; [exact R | discriminate D].
Defined.

Lemma trigger_tool_after_failure_witness :
  Demo.provider_down (request Demo.video_url) = Throw (TypeError "fetch failed") /\
  trigger_tool Demo.provider_down Demo.video_url Demo.world0 =
    (Return VUndefined,
     with_lines [triggering_line Demo.video_url;
                 Brightdata.trigger_error_line (TypeError "fetch failed");
                 triggered_line VUndefined] Demo.world0).
Proof.
  split; [reflexivity|].
  exact (trigger_tool_after_failure Demo.api_url Demo.api_key Demo.stringify
           Demo.provider_down Demo.video_url (TypeError "fetch failed")
           Demo.world0 (or_introl eq_refl)).
Defined.

Lemma retrieval_tools_propagate_witness :
  retrieveTool Scenario.embed_down Demo.distance "ab" "abc12345678" Demo.world3 =
    (Throw (ServiceError "openai" "503 Service Unavailable"), Demo.world3) /\
  retrieveSimilarVideosTool Scenario.embed_down Demo.distance "ab" Demo.world3 =
    (Throw (ServiceError "openai" "503 Service Unavailable"), Demo.world3).
Proof.
  exact (proj2 (proj2 (retrieval_tools_propagate Scenario.embed_down
                         Demo.distance "ab" "abc12345678" Demo.world3))
           _ eq_refl).
Defined.

Lemma ingest_rejects_iff_nullish_witness :
  (exists e w', ingest VNull Demo.world0 = (Throw e, w')) /\
  (exists w', ingest (VNum 7) Demo.world0 = (Return tt, w')).
Proof.
  split.
  - apply (proj1 (ingest_rejects_iff_nullish Demo.embed Demo.insert_ok
                    Demo.coerce_content VNull Demo.world0)).
    left. reflexivity.
  - apply (proj2 (proj2 (ingest_rejects_iff_nullish Demo.embed Demo.insert_ok
                           Demo.coerce_content (VNum 7) Demo.world0))).
    split; discriminate.
Defined.

Lemma ingest_keeps_other_videos_witness :
  get_prop Demo.hello "video_id" = Return (VStr "abc12345678") /\
  VStr "abc12345678" <> VStr "zzz00000000" /\
  fst (retrieve "ab" "zzz00000000" (snd (ingest Demo.hello Scenario.world1))) =
    Return "gamma delta".
Proof.
  assert (N : VStr "abc12345678" <> VStr "zzz00000000") by discriminate.
  split; [reflexivity|]. split; [exact N|].
  rewrite (ingest_keeps_other_videos Demo.embed Demo.distance Demo.insert_ok
             Demo.coerce_content Demo.hello (VStr "abc12345678")
             "zzz00000000" "ab" Scenario.world1 eq_refl N).
  reflexivity.
Defined.

Lemma ingest_then_retrieve_witness :
  get_prop Demo.hello "video_id" = Return (VStr "abc12345678") /\
  video_chunks Demo.coerce_content Demo.hello =
    Return [mkDocument "hello world" [("video_id", VStr "abc12345678")]] /\
  embed_all Demo.embed ["hello world"] = Return [[11%Q]] /\
  Demo.insert_ok [Demo.hello_row] = None /\
  Demo.embed "ab" = Return [2%Q] /\
  fst (retrieve "ab" "abc12345678" (snd (ingest Demo.hello Scenario.world1))) =
    Return "hello world".
Proof.
  assert (C : video_chunks Demo.coerce_content Demo.hello =
              Return [mkDocument "hello world" [("video_id", VStr "abc12345678")]])
    by (vm_compute; reflexivity).
  split; [reflexivity|]. split; [exact C|]. split; [reflexivity|].
  split; [reflexivity|]. split; [reflexivity|].
  destruct (ingest_then_retrieve Demo.embed Demo.distance Demo.insert_ok
              Demo.coerce_content Demo.hello "abc12345678" "ab"
              [mkDocument "hello world" [("video_id", VStr "abc12345678")]]
              [[11%Q]] [2%Q] Scenario.world1 eq_refl C)
    as (texts & P & R).
  - simpl. lia.
  - reflexivity.
  - reflexivity.
  - intros r H. simpl in H. destruct H as [<- | []]. simpl. discriminate.
  - reflexivity.
  - apply Permutation_sym, Permutation_length_1_inv in P. rewrite P in R.
    exact R.
Defined.

Lemma webhook_answers_iff_witness :
  (exists w', webhook (VArr []) Demo.world0 = (Return tt, w')) /\
  ~ (exists w', webhook (VObj []) Demo.world0 = (Return tt, w')).
Proof.
  split.
  - apply (proj1 (webhook_answers_iff Demo.embed Demo.insert_ok
                    Demo.coerce_content (VArr []) Demo.world0)).
    exists []. split; [reflexivity | constructor].
  - intros H.
    apply (proj1 (webhook_answers_iff Demo.embed Demo.insert_ok
                    Demo.coerce_content (VObj []) Demo.world0)) in H.
    destruct H as (items & E & _). discriminate E.
Defined.

Lemma webhook_appends_tagged_rows_witness :
  exists new,
    table (snd (webhook (VArr [VNull; Demo.hello]) Scenario.world1)) =
      (table Scenario.world1 ++ new)%list /\
    Forall (fun r => exists items item id,
              VArr [VNull; Demo.hello] = VArr items /\ In item items /\
              get_prop item "video_id" = Return id /\
              row_metadata r = [("video_id", id)])
           new.
Proof.
  exact (webhook_appends_tagged_rows Demo.embed Demo.insert_ok
           Demo.coerce_content (VArr [VNull; Demo.hello]) Scenario.world1).
Defined.

Lemma generate_sends_last_message_witness :
  generate Scenario.agent_reply Scenario.generate_body Demo.world0 =
    (Return tt,
     with_response "The video is about tides."
       (with_lines [generate_line (VStr "what is the video about?") (VStr "t-1")]
          Demo.world0)).
Proof.
  exact (generate_sends_last_message Scenario.agent_reply Scenario.express_body
           Scenario.generate_body
           (VStr "what is the video about?") (VStr "t-1") _
           (Scenario.ai_message "The video is about tides.")
           [VObj [("role", VStr "user"); ("content", VStr "hi")];
            Scenario.ai_message "Let me look that up."]
           "The video is about tides." Demo.world0 _
           eq_refl eq_refl eq_refl eq_refl eq_refl).
Defined.

Lemma generate_failure_and_empty_witness :
  generate Scenario.agent_down Scenario.generate_body Demo.world0 =
    (Throw (ServiceError "anthropic" "529 Overloaded"),
     with_lines [generate_line (VStr "what is the video about?") (VStr "t-1")]
       Demo.world0) /\
  generate Scenario.agent_silent Scenario.generate_body Demo.world0 =
    (Return tt,
     with_response EmptyString
       (with_lines [generate_line (VStr "what is the video about?") (VStr "t-1")]
          Demo.world0)).
Proof.
  split.
  - exact (proj1 (generate_failure_and_empty Scenario.agent_down
                    Scenario.express_body Scenario.generate_body
                    (VStr "what is the video about?") (VStr "t-1")
                    Demo.world0 _ eq_refl eq_refl)
             _ eq_refl).
  - exact (proj1 (proj2 (generate_failure_and_empty Scenario.agent_silent
                           Scenario.express_body Scenario.generate_body
                           (VStr "what is the video about?") (VStr "t-1")
                           Demo.world0 _ eq_refl eq_refl))
             _ eq_refl eq_refl).
Defined.

Lemma ingest_failure_logged_witness :
  get_prop Demo.hello "video_id" = Return (VStr "abc12345678") /\
  ingestion_fails Scenario.embed_down Demo.insert_ok Demo.coerce_content
    Demo.hello (ServiceError "openai" "503 Service Unavailable") /\
  ingest_offline Demo.hello Demo.world0 =
    (Return tt,
     with_lines [adding_line (VStr "abc12345678");
                 adding_error_line (ServiceError "openai" "503 Service Unavailable")]
       Demo.world0).
Proof.
  assert (F : ingestion_fails Scenario.embed_down Demo.insert_ok
                Demo.coerce_content Demo.hello
                (ServiceError "openai" "503 Service Unavailable")).
  { right. eexists. split; [reflexivity|]. left. reflexivity. }
  split; [reflexivity|]. split; [exact F|].
  exact (ingest_failure_logged Scenario.embed_down Demo.insert_ok
           Demo.coerce_content Demo.hello (VStr "abc12345678") _ Demo.world0
           eq_refl F).
Defined.
